(** * node-etherscan-api: request assembly and unit conversion

    A shallow embedding of the two facade clients of the repository
    ([src/index.ts], the TypeScript client, and [src/EtherscanApi.js],
    the JavaScript client) together with the helpers they call, and the
    properties of the specification stated over that embedding. *)

From Stdlib Require Import ZArith NArith List String Ascii Lia Bool HexadecimalString.
From stdpp Require Import base gmap strings list.

Local Open Scope string_scope.
Local Open Scope list_scope.

(** ** JavaScript values *)

(** Values found in a parameter mapping: strings, numbers (the integers
    the operations take: block numbers, offsets, pages), or [undefined]
    for an optional argument the caller left out. *)
Inductive pval : Type :=
  | PUndefined
  | PStr (s : string)
  | PNum (n : Z).

(** Values found in the [result] field of a response envelope. *)
#[local] Unset Elimination Schemes.
Inductive jsval : Type :=
  | JUndefined
  | JNull
  | JStr (s : string)
  | JNum (n : Z)
  | JArr (items : list jsval)
  | JObj (fields : list (string * jsval)).
#[local] Set Elimination Schemes.

(** Reasons for which a promise is rejected. *)
Inductive error : Type :=
  | RemoteError (message : string)
  | TransportError (detail : string)
  | InvalidUnit (unit : string)
  | NotANumeral (amount : jsval)
  | TypeError
  | SyntaxError
  | BigNumberError.

Inductive outcome (A : Type) : Type :=
  | Resolved (a : A)
  | Rejected (e : error).
Arguments Resolved {A} a.
Arguments Rejected {A} e.

(** ** Decimal numerals

    Plain base-10 numerals, optionally fractional, of arbitrary length:
    the amounts the unit converter reads and writes, with the exact
    decimal arithmetic the converter is specified to use. *)
Module Decimal.

(** The number [mant / 10 ^ frac]. *)
Record dec : Type := Dec { mant : N; frac : nat }.

Definition pow10 (k : nat) : N := 10 ^ N.of_nat k.

Definition digit_of_ascii (c : ascii) : option N :=
  let n := N_of_ascii c in
  if ((48 <=? n) && (n <=? 57))%N then Some (n - 48)%N else None.

Definition ascii_of_digit (d : N) : ascii := ascii_of_N (48 + d).

Definition digits_val (ds : list N) : N :=
  fold_left (fun acc d => acc * 10 + d)%N ds 0%N.

(** The [w] least significant digits of [n], most significant first. *)
Fixpoint fixed_digits (w : nat) (n : N) : list N :=
  match w with
  | O => []
  | S w' => fixed_digits w' (n / 10) ++ [(n mod 10)%N]
  end.

(** Drops leading zeros, keeping the last digit. *)
Fixpoint strip_zeros (ds : list N) : list N :=
  match ds with
  | d :: ((_ :: _) as tl) => if (d =? 0)%N then strip_zeros tl else ds
  | _ => ds
  end.

Definition digits_of_N (n : N) : list N :=
  strip_zeros (fixed_digits (S (N.to_nat (N.log2 n))) n).

Fixpoint parse_digits (cs : list ascii) : option (list N) :=
  match cs with
  | [] => Some []
  | c :: cs' =>
      match digit_of_ascii c, parse_digits cs' with
      | Some d, Some ds => Some (d :: ds)
      | _, _ => None
      end
  end.

(** Splits at the first decimal point, when there is one. *)
Fixpoint split_dot (cs : list ascii) : list ascii * option (list ascii) :=
  match cs with
  | [] => ([], None)
  | c :: cs' =>
      if Ascii.eqb c "." then ([], Some cs')
      else let '(ip, fp) := split_dot cs' in (c :: ip, fp)
  end.

(** Modelled from the spec: the converter's input is "a base-10 numeral
    (optionally fractional) with arbitrary length"; [utils/etherConvert]
    is not among the sources.  Digits, then optionally a point and more
    digits; the numeral is unsigned. *)
Definition parse (s : string) : option dec :=
  let '(ip, fp) := split_dot (list_ascii_of_string s) in
  match parse_digits ip with
  | Some ((_ :: _) as ds) =>
      match fp with
      | None => Some (Dec (digits_val ds) 0)
      | Some f =>
          match parse_digits f with
          | Some ((_ :: _) as fs) =>
              Some (Dec (digits_val (ds ++ fs)) (length fs))
          | _ => None
          end
      end
  | _ => None
  end.

(** Cancels the trailing zeros of the fractional part. *)
Fixpoint norm_aux (s : nat) (m : N) : dec :=
  match s with
  | O => Dec m 0
  | S s' => if (m mod 10 =? 0)%N then norm_aux s' (m / 10) else Dec m s
  end.

Definition norm (d : dec) : dec := norm_aux (frac d) (mant d).

Definition string_of_digits (ds : list N) : string :=
  string_of_list_ascii (map ascii_of_digit ds).

(** Plain notation: all the digits, no exponent. *)
Definition print (d : dec) : string :=
  let p := pow10 (frac d) in
  string_of_digits (digits_of_N (mant d / p))
  +:+ match frac d with
      | O => ""
      | S _ => "." +:+ string_of_digits (fixed_digits (frac d) (mant d mod p))
      end.

(** Modelled from the spec: the converter's result is "rendered as a
    plain decimal string (no exponential notation, no trailing-zero
    truncation beyond what exact arithmetic requires)", so that one ether
    in wei converts back to "1". *)
Definition render (d : dec) : string := print (norm d).

(** Modelled from the spec: the converter's "arbitrary-precision decimal
    arithmetic", here the exact multiplication by [10 ^ k], [k] of
    either sign. *)
Definition scale (k : Z) (d : dec) : dec :=
  if (0 <=? k)%Z
  then Dec (mant d * 10 ^ Z.to_N k) (frac d)
  else Dec (mant d) (frac d + Z.to_nat (- k)).

Definition same_value (d1 d2 : dec) : Prop :=
  (mant d1 * pow10 (frac d2) = mant d2 * pow10 (frac d1))%N.

(** A numeral is canonical when it is the rendering of its own value. *)
Definition canonical (s : string) : Prop :=
  exists d, parse s = Some d /\ render d = s.

End Decimal.


(** ** Parameter mappings

    A JavaScript object used as a record of named parameters: keys are
    unique and keep their insertion order, which is the order in which
    they are serialized. *)
Definition params : Type := list (string * pval).

Fixpoint obj_get (k : string) (o : params) : option pval :=
  match o with
  | [] => None
  | (k', v) :: o' => if String.eqb k k' then Some v else obj_get k o'
  end.

(** [o[k] = v]: an existing key keeps its position, a new one goes last. *)
Fixpoint obj_set (k : string) (v : pval) (o : params) : params :=
  match o with
  | [] => [(k, v)]
  | (k', v') :: o' =>
      if String.eqb k k' then (k, v) :: o' else (k', v') :: obj_set k v o'
  end.

(** The object literal [{ k1: v1, k2: v2, ... }]. *)
Definition obj_literal (entries : list (string * pval)) : params :=
  fold_left (fun o '(k, v) => obj_set k v o) entries [].

(** [{ ...o, k: v }] *)
Definition obj_spread_with (o : params) (k : string) (v : pval) : params :=
  obj_set k v (obj_literal o).

(** A parameter with a default value, as in [function (tag = 'latest')]. *)
Definition or_default (d : pval) (v : pval) : pval :=
  match v with
  | PUndefined => d
  | _ => v
  end.

Definition of_number (n : option Z) : pval :=
  match n with
  | Some z => PNum z
  | None => PUndefined
  end.

(** [String(n)] for an integral number. *)
Definition string_of_Z (z : Z) : string :=
  match z with
  | Zneg p => "-" +:+ Decimal.string_of_digits (Decimal.digits_of_N (Npos p))
  | _ => Decimal.string_of_digits (Decimal.digits_of_N (Z.to_N z))
  end.

(** ** Events and promises

    What a facade method does is recorded as a trace: the calls to the
    request builder, the outbound HTTP requests and the calls to the
    unit converter, in order. *)
Inductive event : Type :=
  | EvCreateRequest (host : option string) (p : params)
  | EvHttpGet (host : option string) (query : string)
  | EvEtherConvert (value : jsval) (fromUnit toUnit : string).

(** A promise: the events it causes and how it settles. *)
Definition Async (A : Type) : Type := (list event * outcome A)%type.

Definition resolve {A : Type} (a : A) : Async A := ([], Resolved a).
Definition reject {A : Type} (e : error) : Async A := ([], Rejected e).
Definition emit (ev : event) : Async unit := ([ev], Resolved tt).

(** [m.then(f)], which is also [f (await m)]. *)
Definition and_then {A B : Type} (m : Async A) (f : A -> Async B) : Async B :=
  match m with
  | (l, Resolved a) => let '(l', r) := f a in (l ++ l', r)
  | (l, Rejected e) => (l, Rejected e)
  end.

Notation "'let*' x ':=' m 'in' k" := (and_then m (fun x => k))
  (at level 10, x name, m at level 100, k at level 200).

(** What a method hands back to its caller. *)
Inductive jsret : Type :=
  | RetUndefined
  | RetPromise (settled : outcome jsval).

Record invocation : Type := Invocation {
  trace : list event;
  returned : jsret
}.

(** [return m] *)
Definition return_promise (m : Async jsval) : invocation :=
  Invocation (fst m) (RetPromise (snd m)).

(** [m] as a statement: the promise is created and not returned. *)
Definition discard_promise (m : Async jsval) : invocation :=
  Invocation (fst m) RetUndefined.

Fixpoint requests_of (t : list event) : list (option string * params) :=
  match t with
  | [] => []
  | EvCreateRequest h p :: t' => (h, p) :: requests_of t'
  | _ :: t' => requests_of t'
  end.

Fixpoint queries_of (t : list event) : list (option string * string) :=
  match t with
  | [] => []
  | EvHttpGet h q :: t' => (h, q) :: queries_of t'
  | _ :: t' => queries_of t'
  end.

Fixpoint conversions_of (t : list event) : list (jsval * string * string) :=
  match t with
  | [] => []
  | EvEtherConvert v a b :: t' => (v, a, b) :: conversions_of t'
  | _ :: t' => conversions_of t'
  end.

(** The parameter mapping a method passed to the request builder. *)
Definition sent_params (i : invocation) : option params :=
  match requests_of (trace i) with
  | (_, p) :: _ => Some p
  | [] => None
  end.

Definition sent_param (i : invocation) (k : string) : option pval :=
  match sent_params i with
  | Some p => obj_get k p
  | None => None
  end.

(** ** Environment *)

Inductive http_response : Type :=
  | HttpEnvelope (status message : string) (result : jsval)
  | HttpFailure (detail : string).

(** [constants/modules], not among the sources: the names used by the
    two clients, with values left open. *)
Record modules : Type := {
  ACCOUNT : string;
  CONTRACT : string;
  TRANSACTION : string;
  BLOCK : string;
  LOGS : string;
  PROXY : string;
  STATS : string
}.

(** The tables and the host facilities the clients rely on.  The tables
    [NETWORKS] (name to host), [UNITS] (unit name to its power of ten
    relative to wei) and [MODULES] stand for the files under
    [constants/]; the maps hold the tables' own keys.  [getHex] stands
    for [utils/getHex].  [BigNumber_toFixed] is
    [new BigNumber(x).toFixed()], which has no value when the constructor
    throws on an [x] that is not a number. *)
Record environment : Type := {
  NETWORKS : gmap string string;
  UNITS : gmap string nat;
  MODULES : modules;
  http_get : option string -> string -> http_response;
  encodeURIComponent : string -> string;
  JSON_parse : jsval -> option jsval;
  parseInt16 : jsval -> jsval;
  toString16 : Z -> string;
  BigNumber_toFixed : jsval -> option string;
  getHex : Z -> string
}.

(** The environment whose remote end answers every request with [r]. *)
Definition with_response (E : environment) (r : http_response) : environment :=
  {| NETWORKS := NETWORKS E; UNITS := UNITS E; MODULES := MODULES E;
     http_get := fun _ _ => r;
     encodeURIComponent := encodeURIComponent E;
     JSON_parse := JSON_parse E; parseInt16 := parseInt16 E;
     toString16 := toString16 E; BigNumber_toFixed := BigNumber_toFixed E;
     getHex := getHex E |}.

Definition success (result : jsval) : http_response :=
  HttpEnvelope "1" "OK" result.

(** ** The request builder *)

(** Modelled from the spec: the values the request builder serializes,
    "numbers, or strings"; [undefined] has no serialization. *)
Definition stringify (v : pval) : option string :=
  match v with
  | PUndefined => None
  | PStr s => Some s
  | PNum n => Some (string_of_Z n)
  end.

(** Modelled from the spec: the request builder's filter, "filter out
    entries whose value is undefined"; what is left is serialized in
    order. *)
Fixpoint query_of_params (p : params) : list (string * string) :=
  match p with
  | [] => []
  | (k, v) :: p' =>
      match stringify v with
      | Some s => (k, s) :: query_of_params p'
      | None => query_of_params p'
      end
  end.

(** Modelled from the spec: "URL-encode remaining entries", joined into
    the query string. *)
Definition query_string (encode : string -> string)
    (q : list (string * string)) : string :=
  String.concat "&" (map (fun '(k, v) => encode k +:+ "=" +:+ encode v) q).

(** Modelled from the spec: how the request builder's promise settles.
    "Envelope status indicates success: resolve with the result field";
    otherwise "fail with an error carrying the envelope's message (or
    transport error detail)". *)
Definition settle (r : http_response) : outcome jsval :=
  match r with
  | HttpEnvelope status message result =>
      if String.eqb status "1" then Resolved result
      else Rejected (RemoteError message)
  | HttpFailure detail => Rejected (TransportError detail)
  end.

(** Modelled from the spec: [utils/createRequest], which is not among
    the sources.  It filters out the entries whose value is undefined,
    URL-encodes the remaining ones, issues exactly one HTTP GET to the
    host with that query string and settles on the response. *)
Definition createRequest (E : environment) (host : option string)
    (p : params) : Async jsval :=
  let query := query_string (encodeURIComponent E) (query_of_params p) in
  let* _ := emit (EvCreateRequest host p) in
  let* _ := emit (EvHttpGet host query) in
  ([], settle (http_get E host query)).

(** ** The unit converter *)

(** Modelled from the spec: [utils/etherConvert], which is not among the
    sources.  [convert(amount, fromUnit, toUnit)] multiplies the decimal
    numeral [amount] by [10 ^ (exponent[fromUnit] - exponent[toUnit])] in
    exact arithmetic and renders the product in plain decimal notation;
    equal units return the input unchanged; a unit that is not in the
    table is an [InvalidUnit] error.  A string that is not a numeral is
    outside the converter's contract and is rejected here. *)
Definition etherConvert (units : gmap string nat)
    (value fromUnit toUnit : string) : outcome string :=
  match units !! fromUnit, units !! toUnit with
  | Some ef, Some et =>
      if String.eqb fromUnit toUnit then Resolved value
      else
        match Decimal.parse value with
        | Some d =>
            Resolved (Decimal.render
                        (Decimal.scale (Z.of_nat ef - Z.of_nat et) d))
        | None => Rejected (NotANumeral (JStr value))
        end
  | None, _ => Rejected (InvalidUnit fromUnit)
  | Some _, None => Rejected (InvalidUnit toUnit)
  end.

(** A call of the converter from a promise callback: an exception it
    throws rejects the promise. *)
Definition call_etherConvert (E : environment) (value : jsval)
    (fromUnit toUnit : string) : Async jsval :=
  let* _ := emit (EvEtherConvert value fromUnit toUnit) in
  match value with
  | JStr s =>
      match etherConvert (UNITS E) s fromUnit toUnit with
      | Resolved s' => resolve (JStr s')
      | Rejected e => reject e
      end
  | _ =>
      match UNITS E !! fromUnit, UNITS E !! toUnit with
      | Some _, Some _ => reject (NotANumeral value)
      | None, _ => reject (InvalidUnit fromUnit)
      | Some _, None => reject (InvalidUnit toUnit)
      end
  end.

(** [item.key] *)
Definition get_field (item : jsval) (key : string) : Async jsval :=
  match item with
  | JObj fields =>
      resolve (match find (fun kv => String.eqb key (fst kv)) fields with
               | Some kv => snd kv
               | None => JUndefined
               end)
  | JUndefined | JNull => reject TypeError
  | _ => resolve JUndefined
  end.

(** The callback of [resp.map] in [getAccountBalances], item by item. *)
Fixpoint convert_balances (E : environment) (unit : string)
    (items : list jsval) : Async (list jsval) :=
  match items with
  | [] => resolve []
  | item :: rest =>
      let* account := get_field item "account" in
      let* balance := get_field item "balance" in
      let* converted := call_etherConvert E balance "wei" unit in
      let* rest' := convert_balances E unit rest in
      resolve (JObj [("account", account); ("balance", converted)] :: rest')
  end.

Definition map_balances (E : environment) (unit : string)
    (resp : jsval) : Async jsval :=
  match resp with
  | JArr items =>
      let* items' := convert_balances E unit items in resolve (JArr items')
  | _ => reject TypeError
  end.

(** The property names every object inherits from [Object.prototype]. *)
Definition Object_prototype_keys : list string :=
  ["constructor"; "__defineGetter__"; "__defineSetter__"; "hasOwnProperty";
   "__lookupGetter__"; "__lookupSetter__"; "isPrototypeOf";
   "propertyIsEnumerable"; "toString"; "valueOf"; "__proto__";
   "toLocaleString"].

Definition inherited_key (k : string) : bool :=
  existsb (String.eqb k) Object_prototype_keys.

(** [unit in UNITS]: the operator [in] holds of the table's own keys and,
    along the prototype chain, of the inherited names. *)
Definition in_units (E : environment) (unit : string) : bool :=
  match UNITS E !! unit with
  | Some _ => true
  | None => inherited_key unit
  end.

(** ** Network resolution, shared by the two constructors *)

(** [String.prototype.toUpperCase] as it is on ASCII strings: the
    letters a-z go to A-Z and every other character stays.  On a string
    with other characters the host's function applies the Unicode case
    mappings, which this definition does not follow; the statements on
    names other than fixed ASCII ones carry the hypothesis [is_ascii]. *)
Definition upper_ascii (c : ascii) : ascii :=
  let n := N_of_ascii c in
  if ((97 <=? n) && (n <=? 122))%N then ascii_of_N (n - 32) else c.

Fixpoint toUpperCase (s : string) : string :=
  match s with
  | EmptyString => EmptyString
  | String c s' => String (upper_ascii c) (toUpperCase s')
  end.

(** The letters a-z, and the strings that have one. *)
Definition is_lower (c : ascii) : bool :=
  ((97 <=? N_of_ascii c) && (N_of_ascii c <=? 122))%N.

Fixpoint has_lower (s : string) : bool :=
  match s with
  | EmptyString => false
  | String c s' => is_lower c || has_lower s'
  end.

(** The strings all of whose characters are ASCII. *)
Fixpoint is_ascii (s : string) : bool :=
  match s with
  | EmptyString => true
  | String c s' => (N_of_ascii c <? 128)%N && is_ascii s'
  end.

Record client : Type := Client {
  token : string;
  network : string;
  host : option string
}.

(** The body of both constructors; they differ in the default token.
    [netName in NETWORKS] is read among the table's own keys: an
    upper-cased name has no letter a-z, so it is none of the inherited
    names (lemma [toUpperCase_not_inherited]). *)
Definition construct (E : environment) (token networkName : string) : client :=
  let netName := toUpperCase networkName in
  let network :=
    match NETWORKS E !! netName with
    | Some _ => netName
    | None => "MAIN"
    end in
  Client token network (NETWORKS E !! network).

(** A method issued exactly one request, and its well-formed parameter
    mapping holds the client's token under [apikey]. *)
Definition carries_apikey (this : client) (i : invocation) : Prop :=
  exists p, requests_of (trace i) = [(host this, p)]
            /\ List.NoDup (map fst p)
            /\ obj_get "apikey" p = Some (PStr (token this)).

(** ** The TypeScript client ([src/index.ts]) *)
Module TS.

(** [constants/actions] as the TypeScript client names them. *)
Record actions : Type := {
  BALANCE : string;
  BALANCE_MULTI : string;
  TRANSACTIONS_LIST : string;
  TRANSACTIONS_LIST_INTERNAL : string;
  GET_ABI : string;
  GET_CONTRACT_STATUS : string;
  GET_TRANSACTION_STATUS : string
}.

Inductive sort_order : Type := asc | desc.

Definition of_sort (s : option sort_order) : pval :=
  match s with
  | Some asc => PStr "asc"
  | Some desc => PStr "desc"
  | None => PUndefined
  end.

Section Client.
Variable E : environment.
Variable ACTIONS : actions.

Definition new (token network : option string) : client :=
  construct E (default "YourApiKeyToken" token) (default "MAIN" network).

Variable this : client.

(** The private method [createRequest]. *)
Definition createRequest_ (p : params) : Async jsval :=
  createRequest E (host this) (obj_spread_with p "apikey" (PStr (token this))).

Definition getAccountBalance (address : string) (unit : option string)
    : invocation :=
  let unit := default "wei" unit in
  return_promise (
    let* resp := createRequest_ (obj_literal [
      ("module", PStr (MODULES E).(ACCOUNT));
      ("action", PStr ACTIONS.(BALANCE));
      ("tag", PStr "latest");
      ("address", PStr address)
    ]) in
    if String.eqb unit "wei" || negb (in_units E unit)
    then resolve resp
    else call_etherConvert E resp "wei" unit).

Definition getAccountBalances (addresses : list string)
    (unit : option string) : invocation :=
  let unit := default "wei" unit in
  return_promise (
    let* resp := createRequest_ (obj_literal [
      ("apikey", PStr (token this));
      ("module", PStr (MODULES E).(ACCOUNT));
      ("action", PStr ACTIONS.(BALANCE_MULTI));
      ("tag", PStr "latest");
      ("address", PStr (String.concat "," addresses))
    ]) in
    if String.eqb unit "wei" || negb (in_units E unit)
    then resolve resp
    else map_balances E unit resp).

Definition getTransactions (address : string)
    (startBlock endBlock offset page : option Z)
    (sort : option sort_order) : invocation :=
  return_promise (createRequest_ (obj_literal [
    ("action", PStr (MODULES E).(ACCOUNT));
    ("module", PStr ACTIONS.(TRANSACTIONS_LIST));
    ("address", PStr address);
    ("endblock", of_number endBlock);
    ("startblock", of_number startBlock);
    ("offset", of_number offset);
    ("page", of_number page);
    ("sort", of_sort sort)
  ])).

Definition getInternalTransactions (address : string)
    (startBlock endBlock offset page : option Z)
    (sort : option sort_order) : invocation :=
  return_promise (createRequest_ (obj_literal [
    ("action", PStr (MODULES E).(ACCOUNT));
    ("module", PStr ACTIONS.(TRANSACTIONS_LIST_INTERNAL));
    ("address", PStr address);
    ("endblock", of_number endBlock);
    ("startblock", of_number startBlock);
    ("offset", of_number offset);
    ("page", of_number page);
    ("sort", of_sort sort)
  ])).

Definition getInternalTransactionsByHash (transactionHash : string)
    : invocation :=
  return_promise (createRequest_ (obj_literal [
    ("action", PStr (MODULES E).(ACCOUNT));
    ("module", PStr ACTIONS.(TRANSACTIONS_LIST_INTERNAL));
    ("txhash", PStr transactionHash)
  ])).

Definition getMinedBlock (address : string) (offset page : option Z)
    : invocation :=
  return_promise (createRequest_ (obj_literal [
    ("action", PStr (MODULES E).(ACCOUNT));
    ("module", PStr ACTIONS.(TRANSACTIONS_LIST_INTERNAL));
    ("address", PStr address);
    ("offset", of_number offset);
    ("page", of_number page)
  ])).

Definition getContractAbi (address : string) : invocation :=
  return_promise (
    let* resp := createRequest_ (obj_literal [
      ("module", PStr (MODULES E).(CONTRACT));
      ("action", PStr ACTIONS.(GET_ABI));
      ("address", PStr address)
    ]) in
    match JSON_parse E resp with
    | Some abi => resolve abi
    | None => reject SyntaxError
    end).

Definition getContractExecutionStatus (txhash : string) : invocation :=
  return_promise (
    let* resp := createRequest_ (obj_literal [
      ("module", PStr (MODULES E).(TRANSACTION));
      ("action", PStr ACTIONS.(GET_CONTRACT_STATUS));
      ("txhash", PStr txhash)
    ]) in
    resolve resp).

Definition getTransactionStatus (txhash : string) : invocation :=
  return_promise (createRequest_ (obj_literal [
    ("module", PStr (MODULES E).(TRANSACTION));
    ("action", PStr ACTIONS.(GET_TRANSACTION_STATUS));
    ("txhash", PStr txhash)
  ])).

(** The public operations with their arguments. *)
Inductive operation : Type :=
  | OpGetAccountBalance (address : string) (unit : option string)
  | OpGetAccountBalances (addresses : list string) (unit : option string)
  | OpGetTransactions (address : string)
      (startBlock endBlock offset page : option Z)
      (sort : option sort_order)
  | OpGetInternalTransactions (address : string)
      (startBlock endBlock offset page : option Z)
      (sort : option sort_order)
  | OpGetInternalTransactionsByHash (transactionHash : string)
  | OpGetMinedBlock (address : string) (offset page : option Z)
  | OpGetContractAbi (address : string)
  | OpGetContractExecutionStatus (txhash : string)
  | OpGetTransactionStatus (txhash : string).

Definition invoke (op : operation) : invocation :=
  match op with
  | OpGetAccountBalance a u => getAccountBalance a u
  | OpGetAccountBalances a u => getAccountBalances a u
  | OpGetTransactions a s e o p t => getTransactions a s e o p t
  | OpGetInternalTransactions a s e o p t =>
      getInternalTransactions a s e o p t
  | OpGetInternalTransactionsByHash h => getInternalTransactionsByHash h
  | OpGetMinedBlock a o p => getMinedBlock a o p
  | OpGetContractAbi a => getContractAbi a
  | OpGetContractExecutionStatus h => getContractExecutionStatus h
  | OpGetTransactionStatus h => getTransactionStatus h
  end.

End Client.
End TS.

(** ** The JavaScript client ([src/EtherscanApi.js]) *)
Module JS.

(** [constants/actions] as the JavaScript client names them. *)
Record actions : Type := {
  GET_BALANCE : string;
  GET_BALANCE_MULTI : string;
  GET_TRANSACTIONS_LIST : string;
  GET_TRANSACTIONS_LIST_INTERNAL : string;
  GET_MINED_BLOCKS : string;
  GET_ABI : string;
  GET_CONTRACT_STATUS : string;
  GET_TRANSACTION_STATUS : string;
  GET_BLOCK_REWARD : string;
  GET_LOGS : string;
  GET_RECENT_BLOCK_NUMBER : string;
  GET_BLOCK_BY_NUMBER : string;
  GET_UNCLE_BLOCK_NUMBER_AND_INDEX : string;
  GET_BLOCK_TX_COUNT_BY_NUMBER : string;
  GET_TRANSACTION_BY_HASH : string;
  GET_TX_BY_BLOCK_NUMBER_AND_INDEX : string;
  GET_TRANSACTION_COUNT : string;
  SEND_RAW_TRANSACTION : string;
  GET_TRANSACTION_RECEIPT : string;
  CALL : string;
  GET_CODE : string;
  GET_STORAGE_AT : string;
  GET_GAS_PRICE : string;
  ESTIMATE_GAS : string;
  GET_TOKEN_BY_CONTRACT : string;
  GET_TOKEN_BALANCE_BY_CONTRACT : string;
  GET_TOTAL_ETHER_SUPPLY : string;
  GET_LAST_ETHER_PRICE : string
}.

Section Client.
Variable E : environment.
Variable ACTIONS : actions.

Definition new (token networkName : option string) : client :=
  construct E (default "" token) (default "MAIN" networkName).

Variable this : client.

Definition _createRequest (p : params) : Async jsval :=
  createRequest E (host this) (obj_spread_with p "apikey" (PStr (token this))).

Definition getAccountBalance (address : pval) (unit : option string)
    (tag : pval) : invocation :=
  let unit := default "wei" unit in
  let tag := or_default (PStr "latest") tag in
  return_promise (
    let* resp := _createRequest (obj_literal [
      ("module", PStr (MODULES E).(ACCOUNT));
      ("action", PStr ACTIONS.(GET_BALANCE));
      ("tag", tag);
      ("address", address)
    ]) in
    if String.eqb unit "wei" || negb (in_units E unit)
    then resolve resp
    else call_etherConvert E resp "wei" unit).

Definition getAccountBalances (addresses : list string)
    (unit : option string) (tag : pval) : invocation :=
  let unit := default "wei" unit in
  let tag := or_default (PStr "latest") tag in
  return_promise (
    let* resp := _createRequest (obj_literal [
      ("apikey", PStr (token this));
      ("module", PStr (MODULES E).(ACCOUNT));
      ("action", PStr ACTIONS.(GET_BALANCE_MULTI));
      ("address", PStr (String.concat "," addresses));
      ("tag", tag)
    ]) in
    if String.eqb unit "wei" || negb (in_units E unit)
    then resolve resp
    else map_balances E unit resp).

Definition getTransactions
    (address startBlock endBlock offset page sort : pval) : invocation :=
  return_promise (_createRequest (obj_literal [
    ("module", PStr (MODULES E).(ACCOUNT));
    ("action", PStr ACTIONS.(GET_TRANSACTIONS_LIST));
    ("address", address);
    ("endblock", endBlock);
    ("startblock", startBlock);
    ("offset", offset);
    ("page", page);
    ("sort", sort)
  ])).

Definition getInternalTransactions
    (address startBlock endBlock offset page sort : pval) : invocation :=
  return_promise (_createRequest (obj_literal [
    ("module", PStr (MODULES E).(ACCOUNT));
    ("action", PStr ACTIONS.(GET_TRANSACTIONS_LIST_INTERNAL));
    ("address", address);
    ("endblock", endBlock);
    ("startblock", startBlock);
    ("offset", offset);
    ("page", page);
    ("sort", sort)
  ])).

Definition getInternalTransactionsByHash (txhash : pval) : invocation :=
  return_promise (_createRequest (obj_literal [
    ("module", PStr (MODULES E).(ACCOUNT));
    ("action", PStr ACTIONS.(GET_TRANSACTIONS_LIST_INTERNAL));
    ("txhash", txhash)
  ])).

Definition getMinedBlocks (address type offset page : pval) : invocation :=
  let type := or_default (PStr "blocks") type in
  return_promise (_createRequest (obj_literal [
    ("module", PStr (MODULES E).(ACCOUNT));
    ("action", PStr ACTIONS.(GET_MINED_BLOCKS));
    ("blocktype", type);
    ("address", address);
    ("offset", offset);
    ("page", page)
  ])).

Definition getContractAbi (address : pval) : invocation :=
  return_promise (
    let* resp := _createRequest (obj_literal [
      ("module", PStr (MODULES E).(CONTRACT));
      ("action", PStr ACTIONS.(GET_ABI));
      ("address", address)
    ]) in
    match JSON_parse E resp with
    | Some abi => resolve abi
    | None => reject SyntaxError
    end).

Definition getContractExecutionStatus (txhash : pval) : invocation :=
  return_promise (_createRequest (obj_literal [
    ("module", PStr (MODULES E).(TRANSACTION));
    ("action", PStr ACTIONS.(GET_CONTRACT_STATUS));
    ("txhash", txhash)
  ])).

Definition getTransactionStatus (txhash : pval) : invocation :=
  return_promise (_createRequest (obj_literal [
    ("module", PStr (MODULES E).(TRANSACTION));
    ("action", PStr ACTIONS.(GET_TRANSACTION_STATUS));
    ("txhash", txhash)
  ])).

Definition getBlockReward (blockNumber : pval) : invocation :=
  return_promise (_createRequest (obj_literal [
    ("module", PStr (MODULES E).(BLOCK));
    ("action", PStr ACTIONS.(GET_BLOCK_REWARD));
    ("blockno", blockNumber)
  ])).

Definition getEventsLogs
    (address fromBlock toBlock topic0 topic01operator topic1
     topic12operator topic2 topic23operator topic3 topic02operator : pval)
    : invocation :=
  return_promise (_createRequest (obj_literal [
    ("module", PStr (MODULES E).(LOGS));
    ("action", PStr ACTIONS.(GET_LOGS));
    ("fromBlock", fromBlock);
    ("toBlock", toBlock);
    ("topic0", topic0);
    ("topic0_1_opr", topic01operator);
    ("topic1", topic1);
    ("topic1_2_opr", topic12operator);
    ("topic2", topic2);
    ("topic2_3_opr", topic23operator);
    ("topic3", topic3);
    ("topic0_2_opr", topic02operator)
  ])).

Definition getRecentBlockNumber : invocation :=
  return_promise (
    let* blockNumberHex := _createRequest (obj_literal [
      ("module", PStr (MODULES E).(PROXY));
      ("action", PStr ACTIONS.(GET_RECENT_BLOCK_NUMBER))
    ]) in
    resolve (parseInt16 E blockNumberHex)).

Definition getBlockByNumber (blockNumber : Z) : invocation :=
  return_promise (_createRequest (obj_literal [
    ("module", PStr (MODULES E).(PROXY));
    ("action", PStr ACTIONS.(GET_BLOCK_BY_NUMBER));
    ("tag", PStr ("0x" +:+ toString16 E blockNumber));
    ("boolean", PStr "true")
  ])).

Definition getUncleByBlockNumberAndIndex (blockNumber : Z)
    (index : option Z) : invocation :=
  let index := default 0%Z index in
  return_promise (_createRequest (obj_literal [
    ("module", PStr (MODULES E).(PROXY));
    ("action", PStr ACTIONS.(GET_UNCLE_BLOCK_NUMBER_AND_INDEX));
    ("tag", PStr (getHex E blockNumber));
    ("index", PStr (getHex E index))
  ])).

Definition getBlockTransactionCount (blockNumber : Z) : invocation :=
  return_promise (
    let* countHex := _createRequest (obj_literal [
      ("module", PStr (MODULES E).(PROXY));
      ("action", PStr ACTIONS.(GET_BLOCK_TX_COUNT_BY_NUMBER));
      ("tag", PStr (getHex E blockNumber))
    ]) in
    resolve (parseInt16 E countHex)).

Definition getTransactionByHash (txhash : pval) : invocation :=
  return_promise (_createRequest (obj_literal [
    ("module", PStr (MODULES E).(PROXY));
    ("action", PStr ACTIONS.(GET_TRANSACTION_BY_HASH));
    ("txhash", txhash)
  ])).

Definition getTransactionByBlockNumberAndIndex (blockNumber : Z)
    (index : option Z) : invocation :=
  let index := default 0%Z index in
  return_promise (_createRequest (obj_literal [
    ("module", PStr (MODULES E).(PROXY));
    ("action", PStr ACTIONS.(GET_TX_BY_BLOCK_NUMBER_AND_INDEX));
    ("tag", PStr (getHex E blockNumber));
    ("index", PStr (getHex E index))
  ])).

Definition getTransactionCount (address tag : pval) : invocation :=
  let tag := or_default (PStr "latest") tag in
  return_promise (
    let* countHex := _createRequest (obj_literal [
      ("module", PStr (MODULES E).(PROXY));
      ("action", PStr ACTIONS.(GET_TRANSACTION_COUNT));
      ("tag", tag);
      ("address", address)
    ]) in
    resolve (parseInt16 E countHex)).

Definition sendRawTransaction (hex : pval) : invocation :=
  discard_promise (_createRequest (obj_literal [
    ("module", PStr (MODULES E).(PROXY));
    ("action", PStr ACTIONS.(SEND_RAW_TRANSACTION));
    ("hex", hex)
  ])).

Definition getTransactionReceipt (txhash : pval) : invocation :=
  return_promise (_createRequest (obj_literal [
    ("module", PStr (MODULES E).(PROXY));
    ("action", PStr ACTIONS.(GET_TRANSACTION_RECEIPT));
    ("txhash", txhash)
  ])).

Definition call (to data tag : pval) : invocation :=
  let tag := or_default (PStr "latest") tag in
  return_promise (_createRequest (obj_literal [
    ("module", PStr (MODULES E).(PROXY));
    ("action", PStr ACTIONS.(CALL));
    ("tag", tag);
    ("to", to);
    ("data", data)
  ])).

Definition getCode (address tag : pval) : invocation :=
  let tag := or_default (PStr "latest") tag in
  return_promise (_createRequest (obj_literal [
    ("module", PStr (MODULES E).(PROXY));
    ("action", PStr ACTIONS.(GET_CODE));
    ("address", address);
    ("tag", tag)
  ])).

Definition getStorageAt (address : pval) (position : Z) (tag : pval)
    : invocation :=
  let tag := or_default (PStr "latest") tag in
  return_promise (_createRequest (obj_literal [
    ("module", PStr (MODULES E).(PROXY));
    ("action", PStr ACTIONS.(GET_STORAGE_AT));
    ("address", address);
    ("position", PStr (getHex E position));
    ("tag", tag)
  ])).

Definition getGasPrice (unit : option string) : invocation :=
  let unit := default "wei" unit in
  return_promise (
    let* priceHex := _createRequest (obj_literal [
      ("module", PStr (MODULES E).(PROXY));
      ("action", PStr ACTIONS.(GET_GAS_PRICE))
    ]) in
    match BigNumber_toFixed E priceHex with
    | None => reject BigNumberError
    | Some priceFixed =>
        if String.eqb unit "wei" then resolve (JStr priceFixed)
        else call_etherConvert E (JStr priceFixed) "wei" unit
    end).

Definition estimateGas (to value gasPrice gas : pval) : invocation :=
  discard_promise (_createRequest (obj_literal [
    ("module", PStr (MODULES E).(PROXY));
    ("action", PStr ACTIONS.(ESTIMATE_GAS));
    ("to", to);
    ("value", value);
    ("gasPrice", gasPrice);
    ("gas", gas)
  ])).

Definition getTokenByContractAddress (contractAddress : pval)
    : invocation :=
  return_promise (_createRequest (obj_literal [
    ("module", PStr (MODULES E).(STATS));
    ("action", PStr ACTIONS.(GET_TOKEN_BY_CONTRACT));
    ("contractaddress", contractAddress)
  ])).

Definition getTokenBalanceByContractAddress
    (contractAddress address tag : pval) : invocation :=
  let tag := or_default (PStr "latest") tag in
  return_promise (_createRequest (obj_literal [
    ("module", PStr (MODULES E).(ACCOUNT));
    ("action", PStr ACTIONS.(GET_TOKEN_BALANCE_BY_CONTRACT));
    ("contractaddress", contractAddress);
    ("address", address);
    ("tag", tag)
  ])).

Definition getTotalEtherSupply : invocation :=
  return_promise (_createRequest (obj_literal [
    ("module", PStr (MODULES E).(STATS));
    ("action", PStr ACTIONS.(GET_TOTAL_ETHER_SUPPLY))
  ])).

Definition getEtherLastPrice : invocation :=
  return_promise (_createRequest (obj_literal [
    ("module", PStr (MODULES E).(STATS));
    ("action", PStr ACTIONS.(GET_LAST_ETHER_PRICE))
  ])).

(** The public operations with their arguments. *)
Inductive operation : Type :=
  | OpGetAccountBalance (address : pval) (unit : option string) (tag : pval)
  | OpGetAccountBalances (addresses : list string) (unit : option string)
      (tag : pval)
  | OpGetTransactions (address startBlock endBlock offset page sort : pval)
  | OpGetInternalTransactions
      (address startBlock endBlock offset page sort : pval)
  | OpGetInternalTransactionsByHash (txhash : pval)
  | OpGetMinedBlocks (address type offset page : pval)
  | OpGetContractAbi (address : pval)
  | OpGetContractExecutionStatus (txhash : pval)
  | OpGetTransactionStatus (txhash : pval)
  | OpGetBlockReward (blockNumber : pval)
  | OpGetEventsLogs
      (address fromBlock toBlock topic0 topic01operator topic1
       topic12operator topic2 topic23operator topic3 topic02operator : pval)
  | OpGetRecentBlockNumber
  | OpGetBlockByNumber (blockNumber : Z)
  | OpGetUncleByBlockNumberAndIndex (blockNumber : Z) (index : option Z)
  | OpGetBlockTransactionCount (blockNumber : Z)
  | OpGetTransactionByHash (txhash : pval)
  | OpGetTransactionByBlockNumberAndIndex (blockNumber : Z)
      (index : option Z)
  | OpGetTransactionCount (address tag : pval)
  | OpSendRawTransaction (hex : pval)
  | OpGetTransactionReceipt (txhash : pval)
  | OpCall (to data tag : pval)
  | OpGetCode (address tag : pval)
  | OpGetStorageAt (address : pval) (position : Z) (tag : pval)
  | OpGetGasPrice (unit : option string)
  | OpEstimateGas (to value gasPrice gas : pval)
  | OpGetTokenByContractAddress (contractAddress : pval)
  | OpGetTokenBalanceByContractAddress (contractAddress address tag : pval)
  | OpGetTotalEtherSupply
  | OpGetEtherLastPrice.

Definition invoke (op : operation) : invocation :=
  match op with
  | OpGetAccountBalance a u t => getAccountBalance a u t
  | OpGetAccountBalances a u t => getAccountBalances a u t
  | OpGetTransactions a s e o p t => getTransactions a s e o p t
  | OpGetInternalTransactions a s e o p t =>
      getInternalTransactions a s e o p t
  | OpGetInternalTransactionsByHash h => getInternalTransactionsByHash h
  | OpGetMinedBlocks a t o p => getMinedBlocks a t o p
  | OpGetContractAbi a => getContractAbi a
  | OpGetContractExecutionStatus h => getContractExecutionStatus h
  | OpGetTransactionStatus h => getTransactionStatus h
  | OpGetBlockReward b => getBlockReward b
  | OpGetEventsLogs a f t t0 o01 t1 o12 t2 o23 t3 o02 =>
      getEventsLogs a f t t0 o01 t1 o12 t2 o23 t3 o02
  | OpGetRecentBlockNumber => getRecentBlockNumber
  | OpGetBlockByNumber b => getBlockByNumber b
  | OpGetUncleByBlockNumberAndIndex b i =>
      getUncleByBlockNumberAndIndex b i
  | OpGetBlockTransactionCount b => getBlockTransactionCount b
  | OpGetTransactionByHash h => getTransactionByHash h
  | OpGetTransactionByBlockNumberAndIndex b i =>
      getTransactionByBlockNumberAndIndex b i
  | OpGetTransactionCount a t => getTransactionCount a t
  | OpSendRawTransaction h => sendRawTransaction h
  | OpGetTransactionReceipt h => getTransactionReceipt h
  | OpCall t d g => call t d g
  | OpGetCode a t => getCode a t
  | OpGetStorageAt a p t => getStorageAt a p t
  | OpGetGasPrice u => getGasPrice u
  | OpEstimateGas t v p g => estimateGas t v p g
  | OpGetTokenByContractAddress a => getTokenByContractAddress a
  | OpGetTokenBalanceByContractAddress c a t =>
      getTokenBalanceByContractAddress c a t
  | OpGetTotalEtherSupply => getTotalEtherSupply
  | OpGetEtherLastPrice => getEtherLastPrice
  end.

End Client.
End JS.

(** ** A sample environment

    One concrete choice of tables and host facilities, on which the
    statements below are instantiated: the four networks the
    constructor's documentation lists, three units, and the seven
    modules of the remote API. *)
Module Sample.

Definition hex_of_N (n : N) : string :=
  HexadecimalString.NilZero.string_of_uint (N.to_hex_uint n).

Definition hex_of_Z (z : Z) : string :=
  match z with
  | Zneg p => "-" +:+ hex_of_N (Npos p)
  | _ => hex_of_N (Z.to_N z)
  end.

Definition N_of_hex (s : string) : option N :=
  match s with
  | String "0" (String "x" digits) =>
      option_map N.of_hex_uint (HexadecimalString.NilZero.uint_of_string digits)
  | _ => option_map N.of_hex_uint (HexadecimalString.NilZero.uint_of_string s)
  end.

Definition parse_int16 (v : jsval) : jsval :=
  match v with
  | JStr s =>
      match N_of_hex s with
      | Some n => JNum (Z.of_N n)
      | None => JUndefined
      end
  | _ => JUndefined
  end.

Definition to_fixed (v : jsval) : option string :=
  match v with
  | JStr (String "0" (String "x" _) as s) =>
      option_map (fun n => string_of_Z (Z.of_N n)) (N_of_hex s)
  | JStr s => option_map Decimal.render (Decimal.parse s)
  | JNum n => Some (string_of_Z n)
  | _ => None
  end.

Definition json_parse (v : jsval) : option jsval :=
  match v with
  | JStr "[]" => Some (JArr [])
  | JStr "{}" => Some (JObj [])
  | JStr "null" => Some JNull
  | _ => None
  end.

Definition networks : gmap string string :=
  list_to_map [
    ("MAIN", "https://api.etherscan.io/api");
    ("ROPSTEN", "https://api-ropsten.etherscan.io/api");
    ("KOVAN", "https://api-kovan.etherscan.io/api");
    ("RINKEBY", "https://api-rinkeby.etherscan.io/api")
  ].

Definition units : gmap string nat :=
  list_to_map [("wei", 0%nat); ("gwei", 9%nat); ("ether", 18%nat)].

Definition env : environment := {|
  NETWORKS := networks;
  UNITS := units;
  MODULES := {| ACCOUNT := "account"; CONTRACT := "contract";
                TRANSACTION := "transaction"; BLOCK := "block";
                LOGS := "logs"; PROXY := "proxy"; STATS := "stats" |};
  http_get := fun _ _ => HttpFailure "offline";
  encodeURIComponent := fun s => s;
  JSON_parse := json_parse;
  parseInt16 := parse_int16;
  toString16 := hex_of_Z;
  BigNumber_toFixed := to_fixed;
  getHex := fun z => "0x" +:+ hex_of_Z z
|}.

Definition ts_actions : TS.actions := {|
  TS.BALANCE := "balance";
  TS.BALANCE_MULTI := "balancemulti";
  TS.TRANSACTIONS_LIST := "txlist";
  TS.TRANSACTIONS_LIST_INTERNAL := "txlistinternal";
  TS.GET_ABI := "getabi";
  TS.GET_CONTRACT_STATUS := "getstatus";
  TS.GET_TRANSACTION_STATUS := "gettxreceiptstatus"
|}.

Definition js_actions : JS.actions := {|
  JS.GET_BALANCE := "balance";
  JS.GET_BALANCE_MULTI := "balancemulti";
  JS.GET_TRANSACTIONS_LIST := "txlist";
  JS.GET_TRANSACTIONS_LIST_INTERNAL := "txlistinternal";
  JS.GET_MINED_BLOCKS := "getminedblocks";
  JS.GET_ABI := "getabi";
  JS.GET_CONTRACT_STATUS := "getstatus";
  JS.GET_TRANSACTION_STATUS := "gettxreceiptstatus";
  JS.GET_BLOCK_REWARD := "getblockreward";
  JS.GET_LOGS := "getLogs";
  JS.GET_RECENT_BLOCK_NUMBER := "eth_blockNumber";
  JS.GET_BLOCK_BY_NUMBER := "eth_getBlockByNumber";
  JS.GET_UNCLE_BLOCK_NUMBER_AND_INDEX := "eth_getUncleByBlockNumberAndIndex";
  JS.GET_BLOCK_TX_COUNT_BY_NUMBER := "eth_getBlockTransactionCountByNumber";
  JS.GET_TRANSACTION_BY_HASH := "eth_getTransactionByHash";
  JS.GET_TX_BY_BLOCK_NUMBER_AND_INDEX :=
    "eth_getTransactionByBlockNumberAndIndex";
  JS.GET_TRANSACTION_COUNT := "eth_getTransactionCount";
  JS.SEND_RAW_TRANSACTION := "eth_sendRawTransaction";
  JS.GET_TRANSACTION_RECEIPT := "eth_getTransactionReceipt";
  JS.CALL := "eth_call";
  JS.GET_CODE := "eth_getCode";
  JS.GET_STORAGE_AT := "eth_getStorageAt";
  JS.GET_GAS_PRICE := "eth_gasPrice";
  JS.ESTIMATE_GAS := "eth_estimateGas";
  JS.GET_TOKEN_BY_CONTRACT := "tokensupply";
  JS.GET_TOKEN_BALANCE_BY_CONTRACT := "tokenbalance";
  JS.GET_TOTAL_ETHER_SUPPLY := "ethsupply";
  JS.GET_LAST_ETHER_PRICE := "ethprice"
|}.

Definition ts_client : client := TS.new env (Some "KEY") (Some "ropsten").
Definition js_client : client := JS.new env (Some "KEY") (Some "ropsten").

End Sample.

(** ** Reading a result *)




(** The "tag" entry a method sends for the tag argument it was given:
    "latest" for a tag left out, the caller's tag otherwise. *)
Definition sends_tag (tag : pval) (i : invocation) : Prop :=
  (tag = PUndefined -> sent_param i "tag" = Some (PStr "latest"))
  /\ (tag <> PUndefined -> sent_param i "tag" = Some tag).

(** * Properties *)

(** ** Decimal numerals: printing, parsing and scaling *)
Module DecimalLemmas.
Import Decimal.
Local Open Scope N_scope.
Local Open Scope list_scope.

Lemma pow10_S k : pow10 (S k) = 10 * pow10 k.
Proof. unfold pow10. rewrite Nat2N.inj_succ, N.pow_succ_r'. reflexivity. Qed.

Lemma pow10_pos k : 0 < pow10 k.
Proof. unfold pow10. apply N.neq_0_lt_0, N.pow_nonzero. discriminate. Qed.

Lemma pow10_add a b : pow10 (a + b) = pow10 a * pow10 b.
Proof. unfold pow10. rewrite Nat2N.inj_add, N.pow_add_r. reflexivity. Qed.

Lemma fold_digits_acc ds acc :
  fold_left (fun a d => a * 10 + d) ds acc
  = acc * pow10 (length ds) + digits_val ds.
Proof.
  unfold digits_val. revert acc.
  induction ds as [|d ds IH]; intros acc; simpl.
  - unfold pow10. simpl. lia.
  - rewrite IH, (IH (0 * 10 + d)), pow10_S. lia.
Qed.

Lemma digits_val_app a b :
  digits_val (a ++ b) = digits_val a * pow10 (length b) + digits_val b.
Proof.
  unfold digits_val at 1. rewrite fold_left_app.
  fold (digits_val a). apply fold_digits_acc.
Qed.

Lemma digits_val_cons d ds :
  digits_val (d :: ds) = d * pow10 (length ds) + digits_val ds.
Proof. apply (digits_val_app [d] ds). Qed.

Lemma fixed_digits_length w n : length (fixed_digits w n) = w.
Proof.
  revert n. induction w as [|w IH]; intros n; simpl; [reflexivity|].
  rewrite length_app, IH. simpl. lia.
Qed.

Lemma fixed_digits_val w n : digits_val (fixed_digits w n) = n mod pow10 w.
Proof.
  revert n. induction w as [|w IH]; intros n; simpl.
  - unfold pow10. simpl. rewrite N.mod_1_r. reflexivity.
  - rewrite digits_val_app, IH, pow10_S. simpl length.
    rewrite N.Div0.mod_mul_r. unfold digits_val, pow10. simpl. lia.
Qed.

Definition is_digit (d : N) : Prop := d < 10.

Lemma fixed_digits_digits w n : Forall is_digit (fixed_digits w n).
Proof.
  revert n. induction w as [|w IH]; intros n; simpl; [constructor|].
  apply Forall_app. split; [apply IH|]. repeat constructor.
  unfold is_digit. apply N.mod_lt. discriminate.
Qed.

Lemma strip_zeros_val ds : digits_val (strip_zeros ds) = digits_val ds.
Proof.
  induction ds as [|d [|e tl] IH]; try reflexivity.
  change (strip_zeros (d :: e :: tl))
    with (if d =? 0 then strip_zeros (e :: tl) else d :: e :: tl).
  destruct (N.eqb_spec d 0) as [->|]; [|reflexivity].
  rewrite IH, (digits_val_cons 0). lia.
Qed.

Lemma strip_zeros_digits ds : Forall is_digit ds -> Forall is_digit (strip_zeros ds).
Proof.
  induction ds as [|d [|e tl] IH]; intros H; try exact H.
  change (strip_zeros (d :: e :: tl))
    with (if d =? 0 then strip_zeros (e :: tl) else d :: e :: tl).
  destruct (d =? 0); [|exact H]. apply IH. inversion H; assumption.
Qed.

Lemma strip_zeros_nonempty ds : ds <> [] -> strip_zeros ds <> [].
Proof.
  induction ds as [|d [|e tl] IH]; intros H; try exact H.
  change (strip_zeros (d :: e :: tl))
    with (if d =? 0 then strip_zeros (e :: tl) else d :: e :: tl).
  destruct (d =? 0); [|exact H]. apply IH. discriminate.
Qed.

Lemma lt_pow10_log2 n : n < pow10 (S (N.to_nat (N.log2 n))).
Proof.
  unfold pow10. rewrite Nat2N.inj_succ, N2Nat.id.
  destruct (N.eq_dec n 0) as [->|Hn]; [reflexivity|].
  apply N.lt_le_trans with (2 ^ N.succ (N.log2 n)).
  - apply N.log2_spec. lia.
  - apply N.pow_le_mono_l. lia.
Qed.

Lemma digits_of_N_val n : digits_val (digits_of_N n) = n.
Proof.
  unfold digits_of_N. rewrite strip_zeros_val, fixed_digits_val.
  apply N.mod_small, lt_pow10_log2.
Qed.

Lemma digits_of_N_digits n : Forall is_digit (digits_of_N n).
Proof. apply strip_zeros_digits, fixed_digits_digits. Qed.

Lemma digits_of_N_nonempty n : digits_of_N n <> [].
Proof.
  apply strip_zeros_nonempty. intros H.
  apply (f_equal (@length N)) in H. rewrite fixed_digits_length in H.
  discriminate.
Qed.

Lemma is_digit_cases d :
  is_digit d ->
  d = 0 \/ d = 1 \/ d = 2 \/ d = 3 \/ d = 4 \/ d = 5 \/ d = 6 \/ d = 7
  \/ d = 8 \/ d = 9.
Proof. unfold is_digit. lia. Qed.

Lemma digit_of_ascii_of_digit d :
  is_digit d -> digit_of_ascii (ascii_of_digit d) = Some d.
Proof.
  intros H. apply is_digit_cases in H.
  repeat (destruct H as [->|H]; [reflexivity|]). subst. reflexivity.
Qed.

Lemma ascii_of_digit_not_dot d :
  is_digit d -> Ascii.eqb (ascii_of_digit d) "." = false.
Proof.
  intros H. apply is_digit_cases in H.
  repeat (destruct H as [->|H]; [reflexivity|]). subst. reflexivity.
Qed.

Lemma parse_digits_chars ds :
  Forall is_digit ds -> parse_digits (map ascii_of_digit ds) = Some ds.
Proof.
  induction 1 as [|d ds Hd _ IH]; simpl; [reflexivity|].
  rewrite digit_of_ascii_of_digit, IH by assumption. reflexivity.
Qed.

Lemma split_dot_chars ds rest :
  Forall is_digit ds ->
  split_dot (map ascii_of_digit ds ++ rest)
  = (map ascii_of_digit ds ++ fst (split_dot rest), snd (split_dot rest)).
Proof.
  induction 1 as [|d ds Hd _ IH]; simpl.
  - destruct (split_dot rest); reflexivity.
  - rewrite ascii_of_digit_not_dot, IH by assumption. reflexivity.
Qed.

Lemma list_ascii_of_string_app a b :
  list_ascii_of_string (a +:+ b)
  = list_ascii_of_string a ++ list_ascii_of_string b.
Proof. induction a as [|c a IH]; simpl; [reflexivity|]. rewrite IH. reflexivity. Qed.

Lemma chars_of_digits ds :
  list_ascii_of_string (string_of_digits ds) = map ascii_of_digit ds.
Proof. apply list_ascii_of_string_of_list_ascii. Qed.

Lemma split_dot_point rest : split_dot ("."%char :: rest) = ([], Some rest).
Proof. reflexivity. Qed.

(** Reading back a printed numeral gives the numeral. *)
Lemma parse_print d : parse (print d) = Some d.
Proof.
  destruct d as [m s]. unfold parse, print. cbn [mant frac].
  rewrite list_ascii_of_string_app, chars_of_digits.
  pose proof (digits_of_N_digits (m / pow10 s)) as Hip.
  pose proof (digits_of_N_nonempty (m / pow10 s)) as Hne.
  pose proof (digits_of_N_val (m / pow10 s)) as Hval.
  rewrite split_dot_chars by assumption.
  destruct s as [|s].
  - simpl. rewrite app_nil_r, parse_digits_chars by assumption.
    destruct (digits_of_N (m / pow10 0)) as [|d ds]; [congruence|].
    rewrite Hval. unfold pow10. simpl. rewrite N.div_1_r. reflexivity.
  - change (list_ascii_of_string ("." +:+ ?x))
      with ("."%char :: list_ascii_of_string x).
    rewrite chars_of_digits, split_dot_point. cbn [fst snd].
    rewrite app_nil_r, parse_digits_chars by assumption.
    destruct (digits_of_N (m / pow10 (S s))) as [|d ds] eqn:E; [congruence|].
    rewrite parse_digits_chars by apply fixed_digits_digits.
    pose proof (fixed_digits_length (S s) (m mod pow10 (S s))) as Hlen.
    destruct (fixed_digits (S s) (m mod pow10 (S s))) as [|f fs] eqn:F;
      [discriminate|].
    rewrite digits_val_app, Hval, Hlen, <- F, fixed_digits_val.
    rewrite N.Div0.mod_mod.
    f_equal. f_equal.
    pose proof (N.div_mod m (pow10 (S s))) as Hdm.
    pose proof (pow10_pos (S s)). lia.
Qed.

Lemma parse_render d : parse (render d) = Some (norm d).
Proof. apply parse_print. Qed.

(** Cancelling zeros undoes padding with zeros. *)
Lemma norm_pad m s j : norm (Dec (m * pow10 j) (s + j)) = norm (Dec m s).
Proof.
  unfold norm. cbn [mant frac]. revert m.
  induction j as [|j IH]; intros m.
  - unfold pow10. simpl. rewrite N.mul_1_r, Nat.add_0_r. reflexivity.
  - rewrite Nat.add_succ_r. cbn [norm_aux].
    rewrite pow10_S.
    replace (m * (10 * pow10 j)) with (m * pow10 j * 10) by lia.
    rewrite N.Div0.mod_mul, N.div_mul by discriminate. simpl. apply IH.
Qed.

Lemma norm_aux_split s m :
  exists j, (s = frac (norm_aux s m) + j)%nat
            /\ m = mant (norm_aux s m) * pow10 j.
Proof.
  revert m. induction s as [|s IH]; intros m; cbn [norm_aux].
  - exists 0%nat. unfold pow10. simpl. split; [reflexivity|lia].
  - destruct (N.eqb_spec (m mod 10) 0) as [H0|H0].
    + destruct (IH (m / 10)) as (j & Hs & Hm). exists (S j).
      split; [lia|]. rewrite pow10_S.
      pose proof (N.div_mod m 10). lia.
    + exists 0%nat. unfold pow10. simpl. split; [lia|lia].
Qed.

Lemma norm_split d :
  exists j, (frac d = frac (norm d) + j)%nat
            /\ mant d = mant (norm d) * pow10 j.
Proof. apply norm_aux_split. Qed.

Lemma norm_idem d : norm (norm d) = norm d.
Proof.
  destruct (norm_split d) as (j & Hs & Hm).
  destruct d as [m s], (norm (Dec m s)) as [m' s'] eqn:E. cbn [mant frac] in *.
  subst. rewrite norm_pad in E. exact E.
Qed.

Lemma pow10_to_N k : (0 <= k)%Z -> 10 ^ Z.to_N k = pow10 (Z.to_nat k).
Proof. intros H. unfold pow10. rewrite Z_nat_N. reflexivity. Qed.

(** Scaling up and back down (or down and back up) keeps the value. *)
Lemma norm_scale_back k d : norm (scale (- k) (norm (scale k d))) = norm d.
Proof.
  destruct d as [m s]. unfold scale.
  destruct (Z.leb_spec 0 k) as [Hk|Hk]; cbn [mant frac].
  - rewrite pow10_to_N by assumption.
    destruct (norm_split (Dec (m * pow10 (Z.to_nat k)) s)) as (j & Hs & Hm).
    destruct (norm (Dec (m * pow10 (Z.to_nat k)) s)) as [m' s'].
    cbn [mant frac] in *.
    destruct (Z.leb_spec 0 (- k)) as [Hk'|Hk']; cbn [mant frac].
    + assert (k = 0%Z) as -> by lia. simpl in *.
      unfold pow10 in Hm at 1. simpl in Hm. rewrite !N.mul_1_r in *.
      subst. rewrite norm_pad. reflexivity.
    + rewrite Z.opp_involutive.
      rewrite <- (norm_pad m s (Z.to_nat k)), Hm, Hs.
      rewrite <- (norm_pad m' (s' + Z.to_nat k) j).
      f_equal. f_equal. lia.
  - destruct (norm_split (Dec m (s + Z.to_nat (- k)))) as (j & Hs & Hm).
    destruct (norm (Dec m (s + Z.to_nat (- k)))) as [m' s'].
    cbn [mant frac] in *.
    destruct (Z.leb_spec 0 (- k)) as [Hk'|Hk']; [|lia]. cbn [mant frac].
    rewrite pow10_to_N by assumption. subst m.
    set (q := Z.to_nat (- k)) in *.
    destruct (Nat.le_ge_cases j q) as [Hjq|Hjq].
    * replace q with (j + (q - j))%nat at 1 by lia.
      rewrite pow10_add, N.mul_assoc.
      replace s' with (s + (q - j))%nat by lia.
      apply norm_pad.
    * replace j with (q + (j - q))%nat at 1 by lia.
      rewrite pow10_add, N.mul_assoc.
      replace s with (s' + (j - q))%nat by lia.
      symmetry. apply norm_pad.
Qed.

End DecimalLemmas.

(** ** The unit converter *)
Section Converter.
Import Decimal DecimalLemmas.
Variable units : gmap string nat.

Lemma norm_same_value d : same_value (norm d) d.
Proof.
  destruct (norm_split d) as (j & Hs & Hm). unfold same_value.
  rewrite Hs, Hm at 1. rewrite pow10_add. lia.
Qed.

Lemma etherConvert_same_unit A X :
  is_Some (units !! A) -> etherConvert units X A A = Resolved X.
Proof.
  intros [e He]. unfold etherConvert. rewrite He, String.eqb_refl.
  reflexivity.
Qed.

Lemma etherConvert_value A B eA eB X d :
  units !! A = Some eA -> units !! B = Some eB -> A <> B ->
  parse X = Some d ->
  etherConvert units X A B
  = Resolved (render (scale (Z.of_nat eA - Z.of_nat eB) d)).
Proof.
  intros HA HB Hne HX. unfold etherConvert. rewrite HA, HB, HX.
  destruct (String.eqb_spec A B) as [->|_]; [contradiction|reflexivity].
Qed.

(** There and back again, for distinct units: the canonical numeral
    of the value of [X]. *)
Lemma etherConvert_there_and_back A B eA eB X d :
  units !! A = Some eA -> units !! B = Some eB -> A <> B ->
  parse X = Some d ->
  exists Y, etherConvert units X A B = Resolved Y
            /\ etherConvert units Y B A = Resolved (render d).
Proof.
  intros HA HB Hne HX. eexists. split.
  - apply (etherConvert_value A B eA eB X d); assumption.
  - rewrite (etherConvert_value B A eB eA _ _ HB HA (not_eq_sym Hne)
               (parse_render _)).
    unfold render at 1.
    replace (Z.of_nat eB - Z.of_nat eA)%Z
      with (- (Z.of_nat eA - Z.of_nat eB))%Z by lia.
    rewrite norm_scale_back. reflexivity.
Qed.

End Converter.

(** The converter on the amounts the specification lists. *)
Example convert_wei_to_ether :
  etherConvert Sample.units "1000000000000000000" "wei" "ether" = Resolved "1".
Proof. vm_compute. reflexivity. Qed.

Example convert_ether_to_wei :
  etherConvert Sample.units "1" "ether" "wei" = Resolved "1000000000000000000".
Proof. vm_compute. reflexivity. Qed.

Example convert_fraction :
  etherConvert Sample.units "1234500000" "wei" "gwei" = Resolved "1.2345".
Proof. vm_compute. reflexivity. Qed.

Example convert_unknown_unit :
  etherConvert Sample.units "1" "wei" "foo" = Rejected (InvalidUnit "foo").
Proof. vm_compute. reflexivity. Qed.

(** C8 (amended).  For every pair of unit names (A, B) in the unit table
    and every decimal numeral X, converting X from A to B and the result
    from B back to A succeeds and loses no precision: the result is a
    numeral of exactly the value of X, and it is X itself, character
    for character, whenever X is canonical (written without superfluous
    zeros, that is, X is how its own value is rendered) and also
    whenever A = B. *)
Theorem etherConvert_round_trip (units : gmap string nat)
    (A B X : string) (d : Decimal.dec) :
  is_Some (units !! A) -> is_Some (units !! B) ->
  Decimal.parse X = Some d ->
  exists Y Z d',
    etherConvert units X A B = Resolved Y
    /\ etherConvert units Y B A = Resolved Z
    /\ Decimal.parse Z = Some d'
    /\ Decimal.same_value d' d
    /\ (Decimal.canonical X -> Z = X)
    /\ (A = B -> Y = X /\ Z = X).
Proof.
  intros HA HB HX.
  destruct (String.eqb_spec A B) as [<-|Hne].
  - exists X, X, d.
    rewrite etherConvert_same_unit by assumption.
    repeat split; try assumption; reflexivity.
  - destruct HA as [eA HA], HB as [eB HB].
    destruct (etherConvert_there_and_back units A B eA eB X d HA HB Hne HX)
      as (Y & HY & HZ).
    exists Y, (Decimal.render d), (Decimal.norm d).
    repeat split; try assumption.
    + apply DecimalLemmas.parse_render.
    + apply norm_same_value.
    + intros (d0 & Hd0 & Hrender). congruence.
    + contradiction.
    + contradiction.
Qed.

Lemma etherConvert_round_trip_witness :
  (exists Y,
     etherConvert Sample.units "1.5" "ether" "wei" = Resolved Y
     /\ etherConvert Sample.units Y "wei" "ether" = Resolved "1.5")
  /\ (exists Y,
        etherConvert Sample.units "1.0" "ether" "ether" = Resolved Y
        /\ etherConvert Sample.units Y "ether" "ether" = Resolved "1.0").
Proof.
  split.
  - destruct (etherConvert_round_trip Sample.units "ether" "wei" "1.5"
                (Decimal.Dec 15 1))
      as (Y & Z & d' & HY & HZ & _ & _ & Hcanonical & _).
    + exists 18%nat. vm_compute. reflexivity.
    + exists 0%nat. vm_compute. reflexivity.
    + vm_compute. reflexivity.
    + exists Y. split; [exact HY|].
      rewrite HZ, Hcanonical; [reflexivity|].
      exists (Decimal.Dec 15 1). split; vm_compute; reflexivity.
  - destruct (etherConvert_round_trip Sample.units "ether" "ether" "1.0"
                (Decimal.Dec 10 1))
      as (Y & Z & d' & HY & HZ & _ & _ & _ & Hsame).
    + exists 18%nat. vm_compute. reflexivity.
    + exists 18%nat. vm_compute. reflexivity.
    + vm_compute. reflexivity.
    + exists Y. split; [exact HY|].
      rewrite HZ. f_equal. apply Hsame. reflexivity.
Defined.

(** C8, as stated, fails on a numeral with a superfluous zero: "1.0"
    ether is 1000000000000000000 wei, which is "1" ether. *)
Lemma etherConvert_round_trip_not_exact :
  Decimal.parse "1.0" = Some (Decimal.Dec 10 1)
  /\ etherConvert Sample.units "1.0" "ether" "wei"
     = Resolved "1000000000000000000"
  /\ etherConvert Sample.units "1000000000000000000" "wei" "ether"
     = Resolved "1"
  /\ "1" <> "1.0".
Proof.
  repeat split; try (vm_compute; reflexivity). discriminate.
Qed.

(** ** Parameter mappings and their serialization *)

Lemma obj_get_set_eq k v o : obj_get k (obj_set k v o) = Some v.
Proof.
  induction o as [|[k' v'] o IH]; simpl.
  - rewrite String.eqb_refl. reflexivity.
  - destruct (String.eqb_spec k k') as [->|Hne]; simpl.
    + rewrite String.eqb_refl. reflexivity.
    + destruct (String.eqb_spec k k'); [contradiction|exact IH].
Qed.

Lemma obj_get_set_ne k k' v o :
  k <> k' -> obj_get k' (obj_set k v o) = obj_get k' o.
Proof.
  intros Hne. induction o as [|[k0 v0] o IH]; simpl.
  - destruct (String.eqb_spec k' k); [congruence|reflexivity].
  - destruct (String.eqb_spec k k0) as [->|Hk]; simpl.
    + destruct (String.eqb_spec k' k0); [congruence|reflexivity].
    + rewrite IH. reflexivity.
Qed.

Lemma obj_set_keys k v o :
  forall k', In k' (map fst (obj_set k v o)) -> k' = k \/ In k' (map fst o).
Proof.
  induction o as [|[k0 v0] o IH]; simpl; intros k' H.
  - destruct H as [<-|[]]. left. reflexivity.
  - destruct (String.eqb_spec k k0) as [->|Hk]; simpl in H.
    + destruct H as [<-|H]; auto.
    + destruct H as [<-|H]; auto. destruct (IH _ H); auto.
Qed.

Lemma obj_set_NoDup k v o :
  List.NoDup (map fst o) -> List.NoDup (map fst (obj_set k v o)).
Proof.
  induction o as [|[k0 v0] o IH]; simpl; intros H.
  - constructor; [intros []|constructor].
  - inversion H as [|? ? Hnin Hnd]; subst.
    destruct (String.eqb_spec k k0) as [->|Hk]; simpl.
    + constructor; assumption.
    + constructor; [|apply IH; assumption].
      intros Hin. destruct (obj_set_keys _ _ _ _ Hin); [congruence|contradiction].
Qed.

Lemma obj_literal_NoDup entries : List.NoDup (map fst (obj_literal entries)).
Proof.
  unfold obj_literal.
  assert (forall o, List.NoDup (map fst o) ->
            List.NoDup (map fst (fold_left (fun o '(k, v) => obj_set k v o) entries o)))
    as H.
  { induction entries as [|[k v] entries IH]; simpl; intros o Ho; [exact Ho|].
    apply IH, obj_set_NoDup, Ho. }
  apply H. constructor.
Qed.

Lemma obj_spread_with_NoDup o k v : List.NoDup (map fst (obj_spread_with o k v)).
Proof. apply obj_set_NoDup, obj_literal_NoDup. Qed.

Lemma obj_get_In k v o : obj_get k o = Some v -> In (k, v) o.
Proof.
  induction o as [|[k' v'] o IH]; simpl; [discriminate|].
  destruct (String.eqb_spec k k') as [->|_]; intros H.
  - left. congruence.
  - right. apply IH, H.
Qed.

Lemma In_obj_get k v o : List.NoDup (map fst o) -> In (k, v) o -> obj_get k o = Some v.
Proof.
  induction o as [|[k' v'] o IH]; simpl; intros Hnd Hin; [contradiction|].
  destruct Hin as [H|H].
  - inversion H; subst. rewrite String.eqb_refl. reflexivity.
  - inversion Hnd as [|? ? Hnin Hnd']; subst.
    destruct (String.eqb_spec k k') as [->|_].
    + exfalso. apply Hnin. apply (in_map fst) in H. exact H.
    + apply IH; assumption.
Qed.

Lemma query_of_params_complete p k v s :
  In (k, v) p -> stringify v = Some s -> In (k, s) (query_of_params p).
Proof.
  induction p as [|[k' v'] p IH]; simpl; intros Hin Hs; [contradiction|].
  destruct Hin as [H|H].
  - inversion H; subst. rewrite Hs. left. reflexivity.
  - destruct (stringify v'); [right|]; apply IH; assumption.
Qed.

Lemma query_of_params_sound p k s :
  In (k, s) (query_of_params p) ->
  exists v, In (k, v) p /\ stringify v = Some s.
Proof.
  induction p as [|[k' v'] p IH]; simpl; [intros []|].
  destruct (stringify v') as [s'|] eqn:Hs; simpl; intros H.
  - destruct H as [H|H].
    + inversion H; subst. exists v'. auto.
    + destruct (IH H) as (v & Hin & Hv). exists v. auto.
  - destruct (IH H) as (v & Hin & Hv). exists v. auto.
Qed.

(** C9.  The request builder drops the entries whose value is undefined:
    the query holds every defined entry of the mapping, every entry of
    the query comes from a defined entry (so nothing stands for an
    undefined value), and a key whose value is undefined is absent from
    it.  For the mapping {a: "x", b: undefined} the query string is
    "a=x". *)
Theorem createRequest_drops_undefined (E : environment)
    (h : option string) (p : params) :
  queries_of (fst (createRequest E h p))
  = [(h, query_string (encodeURIComponent E) (query_of_params p))]
  /\ (forall k v, In (k, v) p -> v <> PUndefined ->
        exists s, stringify v = Some s /\ In (k, s) (query_of_params p))
  /\ (forall k s, In (k, s) (query_of_params p) ->
        exists v, In (k, v) p /\ v <> PUndefined /\ stringify v = Some s)
  /\ (forall k, List.NoDup (map fst p) -> obj_get k p = Some PUndefined ->
        ~ In k (map fst (query_of_params p)))
  /\ query_string (fun s => s)
       (query_of_params [("a", PStr "x"); ("b", PUndefined)]) = "a=x".
Proof.
  split; [reflexivity|]. split; [|split; [|split; [|reflexivity]]].
  - intros k v Hin Hv. destruct v as [|s|n]; [contradiction| |];
      eexists; (split; [reflexivity|]);
      eapply query_of_params_complete; eauto.
  - intros k s Hin. destruct (query_of_params_sound _ _ _ Hin) as (v & Hv & Hs).
    exists v. repeat split; try assumption. intros ->. discriminate.
  - intros k Hnd Hget Hin. apply in_map_iff in Hin.
    destruct Hin as ([k' s] & Hk & Hin). simpl in Hk. subst k'.
    destruct (query_of_params_sound _ _ _ Hin) as (v & Hv & Hs).
    rewrite (In_obj_get _ _ _ Hnd Hv) in Hget. inversion Hget; subst.
    discriminate.
Qed.

Lemma createRequest_drops_undefined_witness :
  (exists s, stringify (PStr "x") = Some s
             /\ In ("a", s)
                  (query_of_params [("a", PStr "x"); ("b", PUndefined)]))
  /\ ~ In "b" (map fst (query_of_params [("a", PStr "x"); ("b", PUndefined)])).
Proof.
  pose proof (createRequest_drops_undefined Sample.env None
                [("a", PStr "x"); ("b", PUndefined)])
    as (_ & Hdefined & _ & Hundefined & _).
  split.
  - apply Hdefined; [left; reflexivity|discriminate].
  - apply Hundefined; [|reflexivity].
    constructor; [|constructor; [|constructor]]; simpl; intuition discriminate.
Defined.

(** ** Traces of promises *)

Lemma requests_of_app l1 l2 :
  requests_of (l1 ++ l2) = requests_of l1 ++ requests_of l2.
Proof.
  induction l1 as [|[h p|h q|v a b] l1 IH]; simpl; rewrite ?IH; reflexivity.
Qed.

Lemma conversions_of_app l1 l2 :
  conversions_of (l1 ++ l2) = conversions_of l1 ++ conversions_of l2.
Proof.
  induction l1 as [|[h p|h q|v a b] l1 IH]; simpl; rewrite ?IH; reflexivity.
Qed.

Lemma and_then_trace {A B : Type} (m : Async A) (f : A -> Async B) :
  fst (and_then m f)
  = fst m ++ match snd m with
             | Resolved a => fst (f a)
             | Rejected _ => []
             end.
Proof.
  destruct m as [l [a|e]]; simpl.
  - destruct (f a); reflexivity.
  - rewrite app_nil_r. reflexivity.
Qed.

Lemma and_then_outcome {A B : Type} (m : Async A) (f : A -> Async B) :
  snd (and_then m f)
  = match snd m with
    | Resolved a => snd (f a)
    | Rejected e => Rejected e
    end.
Proof.
  destruct m as [l [a|e]]; simpl; [destruct (f a)|]; reflexivity.
Qed.

Lemma call_etherConvert_trace E v a b :
  fst (call_etherConvert E v a b) = [EvEtherConvert v a b].
Proof.
  unfold call_etherConvert. rewrite and_then_trace. cbn [emit fst snd].
  destruct v; try (destruct (UNITS E !! a), (UNITS E !! b); reflexivity).
  destruct (etherConvert _ _ _ _); reflexivity.
Qed.

Lemma get_field_trace item key : fst (get_field item key) = [].
Proof. destruct item; reflexivity. Qed.

Lemma convert_balances_requests E u items :
  requests_of (fst (convert_balances E u items)) = [].
Proof.
  induction items as [|item rest IH]; [reflexivity|].
  cbn [convert_balances].
  rewrite and_then_trace, requests_of_app, get_field_trace.
  cbn [requests_of app].
  destruct (snd (get_field item "account")); [|reflexivity].
  rewrite and_then_trace, requests_of_app, get_field_trace.
  cbn [requests_of app].
  destruct (snd (get_field item "balance")) as [bal|]; [|reflexivity].
  rewrite and_then_trace, requests_of_app, call_etherConvert_trace.
  cbn [requests_of app].
  destruct (snd (call_etherConvert E bal "wei" u)); [|reflexivity].
  rewrite and_then_trace, requests_of_app, IH.
  destruct (snd (convert_balances E u rest)); reflexivity.
Qed.

Lemma map_balances_requests E u resp :
  requests_of (fst (map_balances E u resp)) = [].
Proof.
  destruct resp; try reflexivity. cbn [map_balances].
  rewrite and_then_trace, requests_of_app, convert_balances_requests.
  destruct (snd (convert_balances E u items)); reflexivity.
Qed.

Lemma createRequest_requests E h p :
  requests_of (fst (createRequest E h p)) = [(h, p)].
Proof. reflexivity. Qed.

(** A request followed by a callback that issues none. *)
Lemma request_then_quiet E h p {B : Type} (k : jsval -> Async B) :
  (forall a, requests_of (fst (k a)) = []) ->
  requests_of (fst (and_then (createRequest E h p) k)) = [(h, p)].
Proof.
  intros Hk. rewrite and_then_trace, requests_of_app, createRequest_requests.
  destruct (snd (createRequest E h p)); [rewrite Hk|]; reflexivity.
Qed.

Ltac quiet :=
  intros;
  repeat match goal with
         | |- context [match BigNumber_toFixed ?E ?a with _ => _ end] =>
             destruct (BigNumber_toFixed E a)
         | |- context [if ?b then _ else _] => destruct b
         | |- context [match JSON_parse ?E ?a with _ => _ end] =>
             destruct (JSON_parse E a)
         end;
  rewrite ?call_etherConvert_trace, ?map_balances_requests;
  reflexivity.

Ltac one_request :=
  cbn [trace return_promise discard_promise];
  first [ apply createRequest_requests | apply request_then_quiet; quiet ].

Lemma ts_invoke_requests E A this op :
  exists p, requests_of (trace (TS.invoke E A this op))
            = [(host this, obj_spread_with p "apikey" (PStr (token this)))].
Proof.
  destruct op; eexists; cbn [TS.invoke];
    unfold TS.getAccountBalance, TS.getAccountBalances, TS.getTransactions,
      TS.getInternalTransactions, TS.getInternalTransactionsByHash,
      TS.getMinedBlock, TS.getContractAbi, TS.getContractExecutionStatus,
      TS.getTransactionStatus, TS.createRequest_;
    one_request.
Qed.

Lemma js_invoke_requests E A this op :
  exists p, requests_of (trace (JS.invoke E A this op))
            = [(host this, obj_spread_with p "apikey" (PStr (token this)))].
Proof.
  destruct op; eexists; cbn [JS.invoke];
    unfold JS.getAccountBalance, JS.getAccountBalances, JS.getTransactions,
      JS.getInternalTransactions, JS.getInternalTransactionsByHash,
      JS.getMinedBlocks, JS.getContractAbi, JS.getContractExecutionStatus,
      JS.getTransactionStatus, JS.getBlockReward, JS.getEventsLogs,
      JS.getRecentBlockNumber, JS.getBlockByNumber,
      JS.getUncleByBlockNumberAndIndex, JS.getBlockTransactionCount,
      JS.getTransactionByHash, JS.getTransactionByBlockNumberAndIndex,
      JS.getTransactionCount, JS.sendRawTransaction,
      JS.getTransactionReceipt, JS.call, JS.getCode, JS.getStorageAt,
      JS.getGasPrice, JS.estimateGas, JS.getTokenByContractAddress,
      JS.getTokenBalanceByContractAddress, JS.getTotalEtherSupply,
      JS.getEtherLastPrice, JS._createRequest;
    one_request.
Qed.

Lemma spread_with_apikey_carries this p i :
  requests_of (trace i)
  = [(host this, obj_spread_with p "apikey" (PStr (token this)))] ->
  carries_apikey this i.
Proof.
  intros H. eexists. split; [exact H|]. split.
  - apply obj_spread_with_NoDup.
  - apply obj_get_set_eq.
Qed.

(** C6.  Every public operation of either client issues exactly one
    request, and the parameter mapping it passes to the request builder
    holds the entry apikey = the token the client was constructed with. *)
Theorem every_operation_carries_apikey (E : environment)
    (ts_actions : TS.actions) (js_actions : JS.actions)
    (tok net : option string) :
  (forall op, carries_apikey (TS.new E tok net)
                (TS.invoke E ts_actions (TS.new E tok net) op))
  /\ token (TS.new E tok net) = default "YourApiKeyToken" tok
  /\ (forall op, carries_apikey (JS.new E tok net)
                   (JS.invoke E js_actions (JS.new E tok net) op))
  /\ token (JS.new E tok net) = default "" tok.
Proof.
  repeat split.
  - intros op. destruct (ts_invoke_requests E ts_actions (TS.new E tok net) op)
      as [p Hp].
    eapply spread_with_apikey_carries, Hp.
  - intros op. destruct (js_invoke_requests E js_actions (JS.new E tok net) op)
      as [p Hp].
    eapply spread_with_apikey_carries, Hp.
Qed.

(** ** Parameter mappings of particular operations *)

(** C3.  The legacy list operations of the TypeScript client
    (getTransactions, getInternalTransactions,
    getInternalTransactionsByHash) send the module constant under the
    key "action" and the action constant under the key "module". *)
Theorem legacy_operations_transpose_module_and_action (E : environment)
    (A : TS.actions) (this : client) (address transactionHash : string)
    (startBlock endBlock offset page : option Z)
    (sort : option TS.sort_order) :
  sent_param (TS.getTransactions E A this address startBlock endBlock
                offset page sort) "action"
  = Some (PStr (MODULES E).(ACCOUNT))
  /\ sent_param (TS.getTransactions E A this address startBlock endBlock
                   offset page sort) "module"
     = Some (PStr A.(TS.TRANSACTIONS_LIST))
  /\ sent_param (TS.getInternalTransactions E A this address startBlock
                   endBlock offset page sort) "action"
     = Some (PStr (MODULES E).(ACCOUNT))
  /\ sent_param (TS.getInternalTransactions E A this address startBlock
                   endBlock offset page sort) "module"
     = Some (PStr A.(TS.TRANSACTIONS_LIST_INTERNAL))
  /\ sent_param (TS.getInternalTransactionsByHash E A this transactionHash)
       "action"
     = Some (PStr (MODULES E).(ACCOUNT))
  /\ sent_param (TS.getInternalTransactionsByHash E A this transactionHash)
       "module"
     = Some (PStr A.(TS.TRANSACTIONS_LIST_INTERNAL)).
Proof. repeat split; reflexivity. Qed.

(** C7, on the code: getEventsLogs takes an address and leaves it out.
    The parameter mapping it sends has no "address" entry, and the whole
    invocation is the same whatever address the caller supplies. *)
Theorem getEventsLogs_ignores_address (E : environment) (A : JS.actions)
    (this : client)
    (address address' fromBlock toBlock topic0 topic01operator topic1
     topic12operator topic2 topic23operator topic3 topic02operator : pval) :
  (exists p,
     sent_params (JS.getEventsLogs E A this address fromBlock toBlock topic0
                    topic01operator topic1 topic12operator topic2
                    topic23operator topic3 topic02operator) = Some p
     /\ obj_get "address" p = None
     /\ map fst p
        = ["module"; "action"; "fromBlock"; "toBlock"; "topic0";
           "topic0_1_opr"; "topic1"; "topic1_2_opr"; "topic2";
           "topic2_3_opr"; "topic3"; "topic0_2_opr"; "apikey"])
  /\ JS.getEventsLogs E A this address fromBlock toBlock topic0
       topic01operator topic1 topic12operator topic2 topic23operator topic3
       topic02operator
     = JS.getEventsLogs E A this address' fromBlock toBlock topic0
         topic01operator topic1 topic12operator topic2 topic23operator
         topic3 topic02operator.
Proof.
  split; [|reflexivity]. eexists. split; [reflexivity|].
  split; reflexivity.
Qed.

(** C2, on the code: sendRawTransaction and estimateGas issue their
    request and hand [undefined] back to the caller, whatever the remote
    end answers. *)
Theorem sendRawTransaction_and_estimateGas_return_undefined
    (E : environment) (A : JS.actions) (this : client)
    (hex to value gasPrice gas : pval) :
  returned (JS.sendRawTransaction E A this hex) = RetUndefined
  /\ length (requests_of (trace (JS.sendRawTransaction E A this hex))) = 1%nat
  /\ returned (JS.estimateGas E A this to value gasPrice gas) = RetUndefined
  /\ length (requests_of
               (trace (JS.estimateGas E A this to value gasPrice gas))) = 1%nat.
Proof. repeat split; reflexivity. Qed.

(** C10.  The TypeScript getMinedBlock sends the internal-transaction
    list action (under "module", with the module constant under
    "action") and no "blocktype"; its HTTP request and its result are
    those of getInternalTransactions called with the same address,
    offset and page.  The JavaScript getMinedBlocks sends the dedicated
    mined-blocks action and a "blocktype" entry, which is serialized, so
    the two requests differ for every input. *)
Theorem getMinedBlock_is_not_getMinedBlocks (E : environment)
    (ts_actions : TS.actions) (js_actions : JS.actions) (this : client)
    (address : string) (offset page : option Z)
    (js_address js_type js_offset js_page : pval) :
  sent_param (TS.getMinedBlock E ts_actions this address offset page) "module"
  = Some (PStr ts_actions.(TS.TRANSACTIONS_LIST_INTERNAL))
  /\ sent_param (TS.getMinedBlock E ts_actions this address offset page)
       "action"
     = Some (PStr (MODULES E).(ACCOUNT))
  /\ queries_of (trace (TS.getMinedBlock E ts_actions this address offset page))
     = queries_of (trace (TS.getInternalTransactions E ts_actions this address
                            None None offset page None))
  /\ returned (TS.getMinedBlock E ts_actions this address offset page)
     = returned (TS.getInternalTransactions E ts_actions this address
                   None None offset page None)
  /\ sent_param (JS.getMinedBlocks E js_actions this js_address js_type
                   js_offset js_page) "action"
     = Some (PStr js_actions.(JS.GET_MINED_BLOCKS))
  /\ sent_param (JS.getMinedBlocks E js_actions this js_address js_type
                   js_offset js_page) "module"
     = Some (PStr (MODULES E).(ACCOUNT))
  /\ (exists ts_params js_params,
        sent_params (TS.getMinedBlock E ts_actions this address offset page)
        = Some ts_params
        /\ sent_params (JS.getMinedBlocks E js_actions this js_address js_type
                          js_offset js_page)
           = Some js_params
        /\ In "blocktype" (map fst (query_of_params js_params))
        /\ ~ In "blocktype" (map fst (query_of_params ts_params))).
Proof.
  split; [reflexivity|]. split; [reflexivity|].
  split; [destruct offset, page; reflexivity|].
  split; [destruct offset, page; reflexivity|].
  split; [reflexivity|]. split; [reflexivity|].
  eexists. eexists. split; [reflexivity|]. split; [reflexivity|]. split.
  - destruct js_type, js_address, js_offset, js_page; simpl; tauto.
  - destruct offset, page; simpl; intuition discriminate.
Qed.

(** ** Construction *)

Lemma construct_host_known E tok name h :
  NETWORKS E !! toUpperCase name = Some h ->
  construct E tok name = Client tok (toUpperCase name) (Some h).
Proof. intros H. unfold construct. rewrite H. cbn. rewrite H. reflexivity. Qed.

Lemma construct_host_unknown E tok name :
  NETWORKS E !! toUpperCase name = None ->
  construct E tok name = Client tok "MAIN" (NETWORKS E !! "MAIN").
Proof. intros H. unfold construct. rewrite H. reflexivity. Qed.

Lemma construct_case_insensitive E tok n1 n2 :
  toUpperCase n1 = toUpperCase n2 -> construct E tok n1 = construct E tok n2.
Proof. intros H. unfold construct. rewrite H. reflexivity. Qed.

(** An upper-cased name is none of the names inherited from
    Object.prototype, each of which has a letter a-z. *)
Lemma upper_ascii_not_lower c : is_lower (upper_ascii c) = false.
Proof. destruct c as [[] [] [] [] [] [] [] []]; reflexivity. Qed.

Lemma toUpperCase_no_lower s : has_lower (toUpperCase s) = false.
Proof.
  induction s as [|c s IH]; [reflexivity|].
  cbn [toUpperCase has_lower]. rewrite upper_ascii_not_lower, IH. reflexivity.
Qed.

Lemma inherited_key_has_lower k : inherited_key k = true -> has_lower k = true.
Proof.
  unfold inherited_key, Object_prototype_keys. cbn [existsb].
  rewrite !orb_true_iff, !String.eqb_eq.
  intros H. repeat (destruct H as [->|H]; [reflexivity|]). discriminate H.
Qed.

Lemma toUpperCase_not_inherited s : inherited_key (toUpperCase s) = false.
Proof.
  destruct (inherited_key (toUpperCase s)) eqn:H; [|reflexivity].
  apply inherited_key_has_lower in H. rewrite toUpperCase_no_lower in H.
  discriminate H.
Qed.

(** C4.  Both constructors resolve the network name without regard to
    case.  For every ASCII name: a name whose upper-casing is a key of
    the network table gets that network's host ("ropsten" and "ROPSTEN"
    both get the Ropsten host), names that differ in case only build the
    same client, and a name whose upper-casing is not a key
    ("nonexistent") gets the host of the main network, as does a client
    built without a network name. *)
Theorem network_resolution_is_case_insensitive (E : environment)
    (tok : option string) :
  (forall name h,
     is_ascii name = true -> NETWORKS E !! toUpperCase name = Some h ->
     host (TS.new E tok (Some name)) = Some h
     /\ host (JS.new E tok (Some name)) = Some h)
  /\ (forall name,
        is_ascii name = true -> NETWORKS E !! toUpperCase name = None ->
        host (TS.new E tok (Some name)) = NETWORKS E !! "MAIN"
        /\ host (JS.new E tok (Some name)) = NETWORKS E !! "MAIN")
  /\ (forall n1 n2,
        is_ascii n1 = true -> is_ascii n2 = true ->
        toUpperCase n1 = toUpperCase n2 ->
        TS.new E tok (Some n1) = TS.new E tok (Some n2)
        /\ JS.new E tok (Some n1) = JS.new E tok (Some n2))
  /\ (forall h, NETWORKS E !! "ROPSTEN" = Some h ->
        host (TS.new E tok (Some "ROPSTEN")) = Some h
        /\ host (TS.new E tok (Some "ropsten")) = Some h
        /\ host (JS.new E tok (Some "ROPSTEN")) = Some h
        /\ host (JS.new E tok (Some "ropsten")) = Some h)
  /\ (NETWORKS E !! "NONEXISTENT" = None ->
        host (TS.new E tok (Some "nonexistent")) = NETWORKS E !! "MAIN"
        /\ host (JS.new E tok (Some "nonexistent")) = NETWORKS E !! "MAIN")
  /\ host (TS.new E tok None) = NETWORKS E !! "MAIN"
  /\ host (JS.new E tok None) = NETWORKS E !! "MAIN".
Proof.
  unfold TS.new, JS.new. cbn [default from_option id].
  split; [|split; [|split; [|split; [|split]]]].
  - intros name h _ H. rewrite !(construct_host_known _ _ _ _ H). auto.
  - intros name _ H. rewrite !(construct_host_unknown _ _ _ H). auto.
  - intros n1 n2 _ _ H. rewrite !(construct_case_insensitive _ _ _ _ H). auto.
  - intros h H.
    rewrite !(construct_host_known E _ "ROPSTEN" h H).
    rewrite !(construct_host_known E _ "ropsten" h H). auto.
  - intros H. rewrite !(construct_host_unknown E _ "nonexistent" H). auto.
  - destruct (NETWORKS E !! "MAIN") as [h|] eqn:Hmain.
    + rewrite !(construct_host_known E _ "MAIN" h Hmain). auto.
    + rewrite !(construct_host_unknown E _ "MAIN" Hmain). auto.
Qed.

Lemma network_resolution_is_case_insensitive_witness :
  host (TS.new Sample.env None (Some "ropsten"))
  = Some "https://api-ropsten.etherscan.io/api"
  /\ host (JS.new Sample.env None (Some "ROPSTEN"))
     = Some "https://api-ropsten.etherscan.io/api"
  /\ host (TS.new Sample.env None (Some "nonexistent"))
     = Some "https://api.etherscan.io/api"
  /\ host (JS.new Sample.env None (Some "Kovan"))
     = Some "https://api-kovan.etherscan.io/api"
  /\ host (TS.new Sample.env None (Some "test net"))
     = Some "https://api.etherscan.io/api".
Proof.
  pose proof (network_resolution_is_case_insensitive Sample.env None)
    as (Hknown & Hunknown & _ & Hropsten & Hnone & _).
  destruct (Hropsten "https://api-ropsten.etherscan.io/api")
    as (_ & Hts & Hjs & _); [vm_compute; reflexivity|].
  destruct Hnone as [Hmain _]; [vm_compute; reflexivity|].
  destruct (Hknown "Kovan" "https://api-kovan.etherscan.io/api")
    as [_ Hkovan]; [reflexivity|vm_compute; reflexivity|].
  destruct (Hunknown "test net") as [Htest _];
    [reflexivity|vm_compute; reflexivity|].
  split; [exact Hts|]. split; [exact Hjs|].
  split; [rewrite Hmain; vm_compute; reflexivity|].
  split; [exact Hkovan|]. rewrite Htest. vm_compute. reflexivity.
Defined.

(** ** Unit conversion at the facade *)

Lemma units_with_response E r : UNITS (with_response E r) = UNITS E.
Proof. reflexivity. Qed.

Lemma in_units_with_response E r u :
  in_units (with_response E r) u = in_units E u.
Proof. reflexivity. Qed.

Lemma createRequest_success E h p result :
  snd (createRequest (with_response E (success result)) h p) = Resolved result.
Proof. reflexivity. Qed.

Lemma call_etherConvert_outcome E s a b :
  snd (call_etherConvert E (JStr s) a b)
  = match etherConvert (UNITS E) s a b with
    | Resolved s' => Resolved (JStr s')
    | Rejected e => Rejected e
    end.
Proof.
  unfold call_etherConvert. rewrite and_then_outcome. cbn [emit snd].
  destruct (etherConvert _ _ _ _); reflexivity.
Qed.

(** The guard of getAccountBalance and getAccountBalances. *)
Lemma guard_passes E unit :
  unit <> "wei" -> is_Some (UNITS E !! unit) ->
  String.eqb unit "wei" || negb (in_units E unit) = false.
Proof.
  intros Hne [e He]. unfold in_units. rewrite He.
  destruct (String.eqb_spec unit "wei"); [contradiction|reflexivity].
Qed.

Lemma guard_blocks E unit :
  UNITS E !! unit = None -> inherited_key unit = false ->
  String.eqb unit "wei" || negb (in_units E unit) = true.
Proof.
  intros He Hk. unfold in_units. rewrite He, Hk. apply orb_true_r.
Qed.

(** A name inherited from [Object.prototype] passes the guard although
    it is no unit. *)
Lemma guard_passes_inherited E unit :
  inherited_key unit = true ->
  String.eqb unit "wei" || negb (in_units E unit) = false.
Proof.
  intros Hk. unfold in_units. rewrite Hk.
  destruct (UNITS E !! unit); cbn [negb]; rewrite orb_false_r;
    (destruct (String.eqb_spec unit "wei") as [->|_];
     [discriminate Hk|reflexivity]).
Qed.

Lemma ts_getAccountBalance_returned E A this address unit result :
  returned (TS.getAccountBalance (with_response E (success result)) A this
              address (Some unit))
  = RetPromise
      (if String.eqb unit "wei" || negb (in_units E unit)
       then Resolved result
       else snd (call_etherConvert (with_response E (success result))
                   result "wei" unit)).
Proof.
  unfold TS.getAccountBalance, TS.createRequest_, return_promise.
  cbn [returned default from_option id].
  rewrite and_then_outcome, createRequest_success.
  rewrite in_units_with_response.
  destruct (String.eqb unit "wei" || negb (in_units E unit)); reflexivity.
Qed.

Lemma js_getAccountBalance_returned E A this address tag unit result :
  returned (JS.getAccountBalance (with_response E (success result)) A this
              address (Some unit) tag)
  = RetPromise
      (if String.eqb unit "wei" || negb (in_units E unit)
       then Resolved result
       else snd (call_etherConvert (with_response E (success result))
                   result "wei" unit)).
Proof.
  unfold JS.getAccountBalance, JS._createRequest, return_promise.
  cbn [returned default from_option id].
  rewrite and_then_outcome, createRequest_success.
  rewrite in_units_with_response.
  destruct (String.eqb unit "wei" || negb (in_units E unit)); reflexivity.
Qed.

Lemma convert_from_wei E r unit e s d :
  unit <> "wei" -> UNITS E !! "wei" = Some 0%nat -> UNITS E !! unit = Some e ->
  Decimal.parse s = Some d ->
  snd (call_etherConvert (with_response E r) (JStr s) "wei" unit)
  = Resolved (JStr (Decimal.render (Decimal.scale (- Z.of_nat e) d))).
Proof.
  intros Hne Hwei Hunit Hs.
  rewrite call_etherConvert_outcome, units_with_response.
  rewrite (etherConvert_value (UNITS E) "wei" unit 0 e s d)
    by (try assumption; congruence).
  reflexivity.
Qed.

(** C5.  getAccountBalance with unit "ether", on a remote envelope whose
    result is "2000000000000000000", returns "2"; for any unit of the
    table other than "wei" it returns the wei balance multiplied by
    10^-exponent[unit], rendered as a decimal numeral; for "wei", and
    when the unit is left out, it returns the result unchanged. *)
Theorem getAccountBalance_converts_from_wei (E : environment)
    (ts_actions : TS.actions) (js_actions : JS.actions) (this : client)
    (address : string) (js_address js_tag : pval) :
  (UNITS E !! "wei" = Some 0%nat -> UNITS E !! "ether" = Some 18%nat ->
     returned (TS.getAccountBalance
                 (with_response E (success (JStr "2000000000000000000")))
                 ts_actions this address (Some "ether"))
     = RetPromise (Resolved (JStr "2"))
     /\ returned (JS.getAccountBalance
                    (with_response E (success (JStr "2000000000000000000")))
                    js_actions this js_address (Some "ether") js_tag)
        = RetPromise (Resolved (JStr "2")))
  /\ (forall unit e s d,
        unit <> "wei" -> UNITS E !! "wei" = Some 0%nat ->
        UNITS E !! unit = Some e -> Decimal.parse s = Some d ->
        returned (TS.getAccountBalance (with_response E (success (JStr s)))
                    ts_actions this address (Some unit))
        = RetPromise (Resolved (JStr (Decimal.render
                                        (Decimal.scale (- Z.of_nat e) d))))
        /\ returned (JS.getAccountBalance (with_response E (success (JStr s)))
                       js_actions this js_address (Some unit) js_tag)
           = RetPromise (Resolved (JStr (Decimal.render
                                           (Decimal.scale (- Z.of_nat e) d)))))
  /\ (forall result,
        returned (TS.getAccountBalance (with_response E (success result))
                    ts_actions this address (Some "wei"))
        = RetPromise (Resolved result)
        /\ returned (TS.getAccountBalance (with_response E (success result))
                       ts_actions this address None)
           = RetPromise (Resolved result)
        /\ returned (JS.getAccountBalance (with_response E (success result))
                       js_actions this js_address (Some "wei") js_tag)
           = RetPromise (Resolved result)
        /\ returned (JS.getAccountBalance (with_response E (success result))
                       js_actions this js_address None js_tag)
           = RetPromise (Resolved result)).
Proof.
  assert (forall unit e s d,
            unit <> "wei" -> UNITS E !! "wei" = Some 0%nat ->
            UNITS E !! unit = Some e -> Decimal.parse s = Some d ->
            returned (TS.getAccountBalance (with_response E (success (JStr s)))
                        ts_actions this address (Some unit))
            = RetPromise (Resolved (JStr (Decimal.render
                                            (Decimal.scale (- Z.of_nat e) d))))
            /\ returned (JS.getAccountBalance
                           (with_response E (success (JStr s)))
                           js_actions this js_address (Some unit) js_tag)
               = RetPromise (Resolved (JStr (Decimal.render
                                               (Decimal.scale (- Z.of_nat e) d)))))
    as Hgen.
  { intros unit e s d Hne Hwei Hunit Hs.
    rewrite ts_getAccountBalance_returned, js_getAccountBalance_returned.
    rewrite guard_passes by eauto.
    rewrite (convert_from_wei E _ unit e s d) by assumption. auto. }
  split; [|split; [exact Hgen|]].
  - intros Hwei Hether.
    apply (Hgen "ether" 18%nat "2000000000000000000"
             (Decimal.Dec 2000000000000000000 0));
      [discriminate|assumption|assumption|reflexivity].
  - intros result. repeat split; reflexivity.
Qed.

Lemma getAccountBalance_converts_from_wei_witness :
  returned (TS.getAccountBalance
              (with_response Sample.env (success (JStr "2000000000000000000")))
              Sample.ts_actions Sample.ts_client "0xabc" (Some "ether"))
  = RetPromise (Resolved (JStr "2"))
  /\ returned (JS.getAccountBalance
                 (with_response Sample.env (success (JStr "1500000000")))
                 Sample.js_actions Sample.js_client (PStr "0xabc")
                 (Some "gwei") PUndefined)
     = RetPromise (Resolved (JStr "1.5")).
Proof.
  pose proof (getAccountBalance_converts_from_wei Sample.env Sample.ts_actions
                Sample.js_actions Sample.ts_client "0xabc" (PStr "0xabc")
                PUndefined) as (Hether & Hunit & _).
  split.
  - apply Hether; vm_compute; reflexivity.
  - apply (Hunit "gwei" 9%nat "1500000000" (Decimal.Dec 1500000000 0));
      [discriminate|vm_compute; reflexivity..].
Defined.

Lemma conversions_of_createRequest E h p :
  conversions_of (fst (createRequest E h p)) = [].
Proof. reflexivity. Qed.

(** A request on a successful remote end, followed by a callback. *)
Lemma conversions_after_success E h p result (k : jsval -> Async jsval) :
  conversions_of
    (fst (and_then (createRequest (with_response E (success result)) h p) k))
  = conversions_of (fst (k result)).
Proof.
  rewrite and_then_trace, conversions_of_app, conversions_of_createRequest.
  rewrite createRequest_success. reflexivity.
Qed.

(** The two balance methods of both clients let through a unit that
    [in] does not find in the table (neither a key nor an inherited
    name): the result is returned as it came and the converter is not
    called. *)
Lemma ts_getAccountBalance_unknown_unit E A this address unit result :
  UNITS E !! unit = None -> inherited_key unit = false ->
  returned (TS.getAccountBalance (with_response E (success result)) A this
              address (Some unit))
  = RetPromise (Resolved result)
  /\ conversions_of
       (trace (TS.getAccountBalance (with_response E (success result)) A this
                 address (Some unit))) = [].
Proof.
  intros Hu Hk. split.
  - rewrite ts_getAccountBalance_returned, guard_blocks by assumption.
    reflexivity.
  - unfold TS.getAccountBalance, TS.createRequest_, return_promise.
    cbn [trace default from_option id].
    rewrite conversions_after_success, in_units_with_response.
    rewrite guard_blocks by assumption. reflexivity.
Qed.

Lemma js_getAccountBalance_unknown_unit E A this address tag unit result :
  UNITS E !! unit = None -> inherited_key unit = false ->
  returned (JS.getAccountBalance (with_response E (success result)) A this
              address (Some unit) tag)
  = RetPromise (Resolved result)
  /\ conversions_of
       (trace (JS.getAccountBalance (with_response E (success result)) A this
                 address (Some unit) tag)) = [].
Proof.
  intros Hu Hk. split.
  - rewrite js_getAccountBalance_returned, guard_blocks by assumption.
    reflexivity.
  - unfold JS.getAccountBalance, JS._createRequest, return_promise.
    cbn [trace default from_option id].
    rewrite conversions_after_success, in_units_with_response.
    rewrite guard_blocks by assumption. reflexivity.
Qed.

Lemma ts_getAccountBalances_unknown_unit E A this addresses unit result :
  UNITS E !! unit = None -> inherited_key unit = false ->
  returned (TS.getAccountBalances (with_response E (success result)) A this
              addresses (Some unit))
  = RetPromise (Resolved result)
  /\ conversions_of
       (trace (TS.getAccountBalances (with_response E (success result)) A
                 this addresses (Some unit))) = [].
Proof.
  intros Hu Hk.
  unfold TS.getAccountBalances, TS.createRequest_, return_promise.
  cbn [trace returned default from_option id].
  rewrite conversions_after_success, and_then_outcome, createRequest_success.
  rewrite in_units_with_response, guard_blocks by assumption.
  split; reflexivity.
Qed.

Lemma js_getAccountBalances_unknown_unit E A this addresses tag unit result :
  UNITS E !! unit = None -> inherited_key unit = false ->
  returned (JS.getAccountBalances (with_response E (success result)) A this
              addresses (Some unit) tag)
  = RetPromise (Resolved result)
  /\ conversions_of
       (trace (JS.getAccountBalances (with_response E (success result)) A
                 this addresses (Some unit) tag)) = [].
Proof.
  intros Hu Hk.
  unfold JS.getAccountBalances, JS._createRequest, return_promise.
  cbn [trace returned default from_option id].
  rewrite conversions_after_success, and_then_outcome, createRequest_success.
  rewrite in_units_with_response, guard_blocks by assumption.
  split; reflexivity.
Qed.

(** getGasPrice has no such guard: any unit other than "wei" reaches
    the converter. *)
Lemma getGasPrice_unguarded E A this unit result priceFixed :
  unit <> "wei" -> is_Some (UNITS E !! "wei") -> UNITS E !! unit = None ->
  BigNumber_toFixed E result = Some priceFixed ->
  conversions_of
    (trace (JS.getGasPrice (with_response E (success result)) A this
              (Some unit)))
  = [(JStr priceFixed, "wei", unit)]
  /\ returned (JS.getGasPrice (with_response E (success result)) A this
                 (Some unit))
     = RetPromise (Rejected (InvalidUnit unit)).
Proof.
  intros Hne [e Hwei] Hu Hfixed.
  unfold JS.getGasPrice, JS._createRequest, return_promise.
  cbn [trace returned default from_option id].
  rewrite conversions_after_success, and_then_outcome, createRequest_success.
  change (BigNumber_toFixed (with_response E (success result)) result)
    with (BigNumber_toFixed E result).
  rewrite Hfixed.
  destruct (String.eqb_spec unit "wei") as [|_]; [contradiction|].
  rewrite call_etherConvert_trace, call_etherConvert_outcome.
  rewrite units_with_response. unfold etherConvert. rewrite Hwei, Hu.
  split; reflexivity.
Qed.

(** C1, on the code: getGasPrice with the unit "foo", which is not in
    the unit table, calls the converter with "foo", and the promise is
    rejected with the converter's InvalidUnit error; the price does not
    come back. *)
Theorem getGasPrice_calls_converter_with_unknown_unit :
  Sample.units !! "foo" = None
  /\ conversions_of
       (trace (JS.getGasPrice
                 (with_response Sample.env (success (JStr "0x3b9aca00")))
                 Sample.js_actions Sample.js_client (Some "foo")))
     = [(JStr "1000000000", "wei", "foo")]
  /\ returned (JS.getGasPrice
                 (with_response Sample.env (success (JStr "0x3b9aca00")))
                 Sample.js_actions Sample.js_client (Some "foo"))
     = RetPromise (Rejected (InvalidUnit "foo")).
Proof.
  assert (Sample.units !! "foo" = None) as Hfoo by (vm_compute; reflexivity).
  split; [exact Hfoo|].
  destruct (getGasPrice_unguarded Sample.env Sample.js_actions
              Sample.js_client "foo" (JStr "0x3b9aca00") "1000000000")
    as [Hc Hr].
  - discriminate.
  - exists 0%nat. vm_compute. reflexivity.
  - exact Hfoo.
  - vm_compute. reflexivity.
  - split; [exact Hc|exact Hr].
Qed.

(** * Further properties of the two clients *)

(** ** How a method's promise follows the request's *)

Lemma queries_of_app l1 l2 :
  queries_of (l1 ++ l2) = queries_of l1 ++ queries_of l2.
Proof.
  induction l1 as [|[h p|h q|v a b] l1 IH]; simpl; rewrite ?IH; reflexivity.
Qed.

Lemma and_then_resolve {A : Type} (m : Async A) :
  and_then m (fun a => resolve a) = m.
Proof.
  destruct m as [l [a|e]]; simpl; [rewrite app_nil_r|]; reflexivity.
Qed.

Lemma conversions_and_then E h p {B : Type} (k : jsval -> Async B) :
  conversions_of (fst (and_then (createRequest E h p) k))
  = match snd (createRequest E h p) with
    | Resolved a => conversions_of (fst (k a))
    | Rejected _ => []
    end.
Proof.
  rewrite and_then_trace, conversions_of_app, conversions_of_createRequest.
  destruct (snd (createRequest E h p)); reflexivity.
Qed.

Ltac unfold_ts :=
  cbn [TS.invoke];
  unfold TS.getAccountBalance, TS.getAccountBalances, TS.getTransactions,
    TS.getInternalTransactions, TS.getInternalTransactionsByHash,
    TS.getMinedBlock, TS.getContractAbi, TS.getContractExecutionStatus,
    TS.getTransactionStatus, TS.createRequest_;
  cbn [trace returned return_promise discard_promise default from_option id].

Ltac unfold_js :=
  cbn [JS.invoke];
  unfold JS.getAccountBalance, JS.getAccountBalances, JS.getTransactions,
    JS.getInternalTransactions, JS.getInternalTransactionsByHash,
    JS.getMinedBlocks, JS.getContractAbi, JS.getContractExecutionStatus,
    JS.getTransactionStatus, JS.getBlockReward, JS.getEventsLogs,
    JS.getRecentBlockNumber, JS.getBlockByNumber,
    JS.getUncleByBlockNumberAndIndex, JS.getBlockTransactionCount,
    JS.getTransactionByHash, JS.getTransactionByBlockNumberAndIndex,
    JS.getTransactionCount, JS.sendRawTransaction,
    JS.getTransactionReceipt, JS.call, JS.getCode, JS.getStorageAt,
    JS.getGasPrice, JS.estimateGas, JS.getTokenByContractAddress,
    JS.getTokenBalanceByContractAddress, JS.getTotalEtherSupply,
    JS.getEtherLastPrice, JS._createRequest;
  cbn [trace returned return_promise discard_promise default from_option id].

(** X1.  A rejection of the request is the rejection of the method: when
    the request builder's promise is rejected with an error, every
    operation of either client that returns its promise returns one
    rejected with that same error, and no callback runs (the converter
    is not called); sendRawTransaction and estimateGas return undefined
    all the same. *)
Theorem rejection_reaches_the_caller (E : environment)
    (ts_actions : TS.actions) (js_actions : JS.actions) (this : client)
    (e : error) :
  (forall h p, snd (createRequest E h p) = Rejected e) ->
  (forall op,
     returned (TS.invoke E ts_actions this op) = RetPromise (Rejected e)
     /\ conversions_of (trace (TS.invoke E ts_actions this op)) = [])
  /\ (forall op,
        returned (JS.invoke E js_actions this op)
        = match op with
          | JS.OpSendRawTransaction _ | JS.OpEstimateGas _ _ _ _ =>
              RetUndefined
          | _ => RetPromise (Rejected e)
          end
        /\ conversions_of (trace (JS.invoke E js_actions this op)) = []).
Proof.
  intros Hrej. split.
  - intros op. destruct op; unfold_ts;
      rewrite ?and_then_outcome, ?conversions_and_then, ?Hrej;
      split; reflexivity.
  - intros op. destruct op; unfold_js;
      rewrite ?and_then_outcome, ?conversions_and_then, ?Hrej;
      split; reflexivity.
Qed.

Lemma rejection_reaches_the_caller_witness :
  returned (JS.getContractAbi Sample.env Sample.js_actions Sample.js_client
              (PStr "0xabc"))
  = RetPromise (Rejected (TransportError "offline"))
  /\ returned (TS.getAccountBalances Sample.env Sample.ts_actions
                 Sample.ts_client ["0xa"; "0xb"] (Some "ether"))
     = RetPromise (Rejected (TransportError "offline")).
Proof.
  destruct (rejection_reaches_the_caller Sample.env Sample.ts_actions
              Sample.js_actions Sample.js_client (TransportError "offline"))
    as [Hts Hjs]; [reflexivity|].
  split.
  - exact (proj1 (Hjs (JS.OpGetContractAbi (PStr "0xabc")))).
  - exact (proj1 (Hts (TS.OpGetAccountBalances ["0xa"; "0xb"] (Some "ether")))).
Defined.

(** X2.  The operations without post-processing hand the request's
    result to the caller as it is: when the request builder's promise
    resolves with a value, the promise of each of them resolves with
    that very value.  The others are the two balance methods, getGasPrice,
    getContractAbi, the three hexadecimal counts, and the two methods
    that return nothing. *)
Theorem plain_operations_return_the_result (E : environment)
    (ts_actions : TS.actions) (js_actions : JS.actions) (this : client)
    (r : jsval) :
  (forall h p, snd (createRequest E h p) = Resolved r) ->
  (forall op,
     match op with
     | TS.OpGetAccountBalance _ _ | TS.OpGetAccountBalances _ _
     | TS.OpGetContractAbi _ => True
     | _ => returned (TS.invoke E ts_actions this op)
            = RetPromise (Resolved r)
     end)
  /\ (forall op,
        match op with
        | JS.OpGetAccountBalance _ _ _ | JS.OpGetAccountBalances _ _ _
        | JS.OpGetGasPrice _ | JS.OpGetContractAbi _
        | JS.OpGetRecentBlockNumber | JS.OpGetBlockTransactionCount _
        | JS.OpGetTransactionCount _ _
        | JS.OpSendRawTransaction _ | JS.OpEstimateGas _ _ _ _ => True
        | _ => returned (JS.invoke E js_actions this op)
               = RetPromise (Resolved r)
        end).
Proof.
  intros Hres. split.
  - intros op. destruct op; try exact I; unfold_ts;
      rewrite ?and_then_outcome, ?Hres; reflexivity.
  - intros op. destruct op; try exact I; unfold_js;
      rewrite ?and_then_outcome, ?Hres; reflexivity.
Qed.

Lemma plain_operations_return_the_result_witness :
  returned (JS.getBlockReward
              (with_response Sample.env (success (JStr "reward")))
              Sample.js_actions Sample.js_client (PNum 2165403))
  = RetPromise (Resolved (JStr "reward"))
  /\ returned (TS.getMinedBlock
                 (with_response Sample.env (success (JArr [])))
                 Sample.ts_actions Sample.ts_client "0xabc" None None)
     = RetPromise (Resolved (JArr [])).
Proof.
  split.
  - destruct (plain_operations_return_the_result
                (with_response Sample.env (success (JStr "reward")))
                Sample.ts_actions Sample.js_actions Sample.js_client
                (JStr "reward")) as [_ Hjs]; [reflexivity|].
    exact (Hjs (JS.OpGetBlockReward (PNum 2165403))).
  - destruct (plain_operations_return_the_result
                (with_response Sample.env (success (JArr [])))
                Sample.ts_actions Sample.js_actions Sample.ts_client
                (JArr [])) as [Hts _]; [reflexivity|].
    exact (Hts (TS.OpGetMinedBlock "0xabc" None None)).
Defined.

(** ** Where the unit converter is called, and what the unit changes *)

Ltac no_conversion :=
  first
    [ apply conversions_of_createRequest
    | rewrite conversions_and_then;
      match goal with
      | |- match snd ?m with _ => _ end = _ => destruct (snd m); [|reflexivity]
      end;
      repeat match goal with
             | |- context [match JSON_parse ?E ?a with _ => _ end] =>
                 destruct (JSON_parse E a)
             | |- context [match BigNumber_toFixed ?E ?a with _ => _ end] =>
                 destruct (BigNumber_toFixed E a)
             end;
      try reflexivity ].

(** X3.  The unit converter is called by getAccountBalance,
    getAccountBalances and getGasPrice only, and by them for a unit other
    than "wei" only; the two balance methods call it only for a unit
    that [in] finds in the table, which are the table's own keys and the
    names inherited from Object.prototype ("toString", "constructor",
    ...).  Every other invocation, whatever the remote end answers,
    makes no call to the converter; getAccountBalance with an inherited
    name does call it, on the result as it came. *)
Theorem converter_is_called_for_other_units_only (E : environment)
    (ts_actions : TS.actions) (js_actions : JS.actions) (this : client) :
  (forall op,
     (forall a u, op = TS.OpGetAccountBalance a (Some u) ->
                  u = "wei"
                  \/ (UNITS E !! u = None /\ inherited_key u = false)) ->
     (forall a u, op = TS.OpGetAccountBalances a (Some u) ->
                  u = "wei"
                  \/ (UNITS E !! u = None /\ inherited_key u = false)) ->
     conversions_of (trace (TS.invoke E ts_actions this op)) = [])
  /\ (forall op,
        (forall a u t, op = JS.OpGetAccountBalance a (Some u) t ->
                       u = "wei"
                       \/ (UNITS E !! u = None /\ inherited_key u = false)) ->
        (forall a u t, op = JS.OpGetAccountBalances a (Some u) t ->
                       u = "wei"
                       \/ (UNITS E !! u = None /\ inherited_key u = false)) ->
        (forall u, op = JS.OpGetGasPrice (Some u) -> u = "wei") ->
        conversions_of (trace (JS.invoke E js_actions this op)) = [])
  /\ (forall a ja t u r,
        inherited_key u = true ->
        conversions_of
          (trace (TS.getAccountBalance (with_response E (success r))
                    ts_actions this a (Some u)))
        = [(r, "wei", u)]
        /\ conversions_of
             (trace (JS.getAccountBalance (with_response E (success r))
                       js_actions this ja (Some u) t))
           = [(r, "wei", u)]).
Proof.
  split; [|split].
  - intros op Hbalance Hbalances.
    destruct op as [a [u|]|a [u|]| | | | | | |]; unfold_ts; no_conversion.
    + destruct (Hbalance a u eq_refl) as [->|[Hu Hk]];
        [reflexivity|rewrite (guard_blocks E u Hu Hk); reflexivity].
    + destruct (Hbalances a u eq_refl) as [->|[Hu Hk]];
        [reflexivity|rewrite (guard_blocks E u Hu Hk); reflexivity].
  - intros op Hbalance Hbalances Hgas.
    destruct op as [a [u|] t|a [u|] t| | | | | | | | | | | | | | | | | | | | |
                    |[u|]| | | | |];
      unfold_js; no_conversion.
    + destruct (Hbalance a u t eq_refl) as [->|[Hu Hk]];
        [reflexivity|rewrite (guard_blocks E u Hu Hk); reflexivity].
    + destruct (Hbalances a u t eq_refl) as [->|[Hu Hk]];
        [reflexivity|rewrite (guard_blocks E u Hu Hk); reflexivity].
    + rewrite (Hgas u eq_refl). reflexivity.
  - intros a ja t u r Hk.
    unfold TS.getAccountBalance, TS.createRequest_, JS.getAccountBalance,
      JS._createRequest, return_promise.
    cbn [trace default from_option id].
    rewrite !conversions_after_success, !in_units_with_response.
    rewrite (guard_passes_inherited E u Hk), !call_etherConvert_trace.
    split; reflexivity.
Qed.

Lemma converter_is_called_for_other_units_only_witness :
  conversions_of
    (trace (JS.invoke (with_response Sample.env
                         (success (JStr "2000000000000000000")))
              Sample.js_actions Sample.js_client
              (JS.OpGetAccountBalance (PStr "0xabc") (Some "foo") PUndefined)))
  = []
  /\ conversions_of
       (trace (TS.invoke (with_response Sample.env (success (JArr [])))
                 Sample.ts_actions Sample.ts_client
                 (TS.OpGetTransactionStatus "0x1")))
     = []
  /\ conversions_of
       (trace (JS.getAccountBalance
                 (with_response Sample.env
                    (success (JStr "2000000000000000000")))
                 Sample.js_actions Sample.js_client (PStr "0xabc")
                 (Some "toString") PUndefined))
     = [(JStr "2000000000000000000", "wei", "toString")].
Proof.
  split; [|split].
  - apply (converter_is_called_for_other_units_only
             (with_response Sample.env (success (JStr "2000000000000000000")))
             Sample.ts_actions Sample.js_actions Sample.js_client).
    + intros a u t Heq. inversion Heq; subst. right.
      split; vm_compute; reflexivity.
    + intros a u t Heq. discriminate Heq.
    + intros u Heq. discriminate Heq.
  - apply (converter_is_called_for_other_units_only
             (with_response Sample.env (success (JArr [])))
             Sample.ts_actions Sample.js_actions Sample.ts_client).
    + intros a u Heq. discriminate Heq.
    + intros a u Heq. discriminate Heq.
  - apply (converter_is_called_for_other_units_only Sample.env
             Sample.ts_actions Sample.js_actions Sample.js_client).
    + exact "0xabc".
    + reflexivity.
Defined.

Lemma convert_balances_queries E u items :
  queries_of (fst (convert_balances E u items)) = [].
Proof.
  induction items as [|item rest IH]; [reflexivity|].
  cbn [convert_balances].
  rewrite and_then_trace, queries_of_app, get_field_trace.
  cbn [queries_of app].
  destruct (snd (get_field item "account")); [|reflexivity].
  rewrite and_then_trace, queries_of_app, get_field_trace.
  cbn [queries_of app].
  destruct (snd (get_field item "balance")) as [bal|]; [|reflexivity].
  rewrite and_then_trace, queries_of_app, call_etherConvert_trace.
  cbn [queries_of app].
  destruct (snd (call_etherConvert E bal "wei" u)); [|reflexivity].
  rewrite and_then_trace, queries_of_app, IH.
  destruct (snd (convert_balances E u rest)); reflexivity.
Qed.

Lemma map_balances_queries E u resp :
  queries_of (fst (map_balances E u resp)) = [].
Proof.
  destruct resp; try reflexivity. cbn [map_balances].
  rewrite and_then_trace, queries_of_app, convert_balances_queries.
  destruct (snd (convert_balances E u items)); reflexivity.
Qed.

(** What goes out for a request followed by a callback that converts. *)
Lemma wire_then_quiet E h p {B : Type} (k : jsval -> Async B) :
  (forall a, requests_of (fst (k a)) = [] /\ queries_of (fst (k a)) = []) ->
  requests_of (fst (and_then (createRequest E h p) k)) = [(h, p)]
  /\ queries_of (fst (and_then (createRequest E h p) k))
     = [(h, query_string (encodeURIComponent E) (query_of_params p))].
Proof.
  intros Hk. split.
  - apply request_then_quiet. intros a. apply Hk.
  - rewrite and_then_trace, queries_of_app.
    destruct (snd (createRequest E h p)) as [a|];
      [rewrite (proj2 (Hk a))|]; reflexivity.
Qed.

Ltac silent :=
  intros;
  repeat match goal with
         | |- context [match BigNumber_toFixed ?E ?a with _ => _ end] =>
             destruct (BigNumber_toFixed E a)
         | |- context [if ?b then _ else _] => destruct b
         end;
  rewrite ?call_etherConvert_trace, ?map_balances_requests,
    ?map_balances_queries;
  split; reflexivity.

(** X4.  The unit is never sent: what getAccountBalance,
    getAccountBalances and getGasPrice pass to the request builder, and
    the HTTP request that goes out, are the same for every unit; the
    unit only selects the conversion of the result. *)
Theorem unit_is_not_sent (E : environment)
    (ts_actions : TS.actions) (js_actions : JS.actions) (this : client)
    (address : string) (addresses : list string)
    (js_address tag : pval) (unit unit' : option string) :
  (requests_of (trace (TS.getAccountBalance E ts_actions this address unit))
   = requests_of (trace (TS.getAccountBalance E ts_actions this address unit'))
   /\ queries_of (trace (TS.getAccountBalance E ts_actions this address unit))
      = queries_of (trace (TS.getAccountBalance E ts_actions this address
                             unit')))
  /\ (requests_of (trace (TS.getAccountBalances E ts_actions this addresses
                            unit))
      = requests_of (trace (TS.getAccountBalances E ts_actions this addresses
                              unit'))
      /\ queries_of (trace (TS.getAccountBalances E ts_actions this addresses
                              unit))
         = queries_of (trace (TS.getAccountBalances E ts_actions this
                                addresses unit')))
  /\ (requests_of (trace (JS.getAccountBalance E js_actions this js_address
                            unit tag))
      = requests_of (trace (JS.getAccountBalance E js_actions this js_address
                              unit' tag))
      /\ queries_of (trace (JS.getAccountBalance E js_actions this js_address
                              unit tag))
         = queries_of (trace (JS.getAccountBalance E js_actions this
                                js_address unit' tag)))
  /\ (requests_of (trace (JS.getAccountBalances E js_actions this addresses
                            unit tag))
      = requests_of (trace (JS.getAccountBalances E js_actions this addresses
                              unit' tag))
      /\ queries_of (trace (JS.getAccountBalances E js_actions this addresses
                              unit tag))
         = queries_of (trace (JS.getAccountBalances E js_actions this
                                addresses unit' tag)))
  /\ (requests_of (trace (JS.getGasPrice E js_actions this unit))
      = requests_of (trace (JS.getGasPrice E js_actions this unit'))
      /\ queries_of (trace (JS.getGasPrice E js_actions this unit))
         = queries_of (trace (JS.getGasPrice E js_actions this unit'))).
Proof.
  repeat apply conj;
    unfold TS.getAccountBalance, TS.getAccountBalances, TS.createRequest_,
      JS.getAccountBalance, JS.getAccountBalances, JS.getGasPrice,
      JS._createRequest;
    cbn [trace return_promise];
    match goal with
    | |- requests_of (fst (and_then (createRequest ?E ?h ?p) ?k))
         = requests_of (fst (and_then (createRequest ?E ?h ?p) ?k')) =>
        rewrite (proj1 (wire_then_quiet E h p k ltac:(silent))),
          (proj1 (wire_then_quiet E h p k' ltac:(silent))); reflexivity
    | |- queries_of (fst (and_then (createRequest ?E ?h ?p) ?k))
         = queries_of (fst (and_then (createRequest ?E ?h ?p) ?k')) =>
        rewrite (proj2 (wire_then_quiet E h p k ltac:(silent))),
          (proj2 (wire_then_quiet E h p k' ltac:(silent))); reflexivity
    end.
Qed.

(** ** getAccountBalances, item by item *)


Lemma call_etherConvert_with_response E r v a b :
  call_etherConvert (with_response E r) v a b = call_etherConvert E v a b.
Proof. reflexivity. Qed.

Lemma convert_balances_with_response E r u items :
  convert_balances (with_response E r) u items = convert_balances E u items.
Proof.
  induction items as [|item rest IH]; [reflexivity|].
  cbn [convert_balances]. rewrite IH. reflexivity.
Qed.

Lemma map_balances_with_response E r u resp :
  map_balances (with_response E r) u resp = map_balances E u resp.
Proof.
  destruct resp; try reflexivity. cbn [map_balances].
  rewrite convert_balances_with_response. reflexivity.
Qed.





(** X6.  The edges of getAccountBalances with a unit of the table other
    than "wei": an empty array comes back as an empty array; a result
    that is not an array rejects the promise with a TypeError (it has no
    [map]) although the same result is returned as it is for "wei"; and
    so does an array whose first item is null or undefined.  The
    converter is not called in any of these cases. *)
Theorem getAccountBalances_edges (E : environment)
    (ts_actions : TS.actions) (js_actions : JS.actions) (this : client)
    (addresses : list string) (tag : pval) (unit : string) :
  unit <> "wei" -> is_Some (UNITS E !! unit) ->
  forall r,
    (r = JArr [] ->
     returned (TS.getAccountBalances (with_response E (success r))
                 ts_actions this addresses (Some unit))
     = RetPromise (Resolved (JArr []))
     /\ returned (JS.getAccountBalances (with_response E (success r))
                    js_actions this addresses (Some unit) tag)
        = RetPromise (Resolved (JArr [])))
    /\ ((forall items, r <> JArr items)
        \/ (exists rest, r = JArr (JNull :: rest))
        \/ (exists rest, r = JArr (JUndefined :: rest)) ->
        returned (TS.getAccountBalances (with_response E (success r))
                    ts_actions this addresses (Some unit))
        = RetPromise (Rejected TypeError)
        /\ returned (JS.getAccountBalances (with_response E (success r))
                       js_actions this addresses (Some unit) tag)
           = RetPromise (Rejected TypeError)
        /\ returned (TS.getAccountBalances (with_response E (success r))
                       ts_actions this addresses (Some "wei"))
           = RetPromise (Resolved r)
        /\ returned (JS.getAccountBalances (with_response E (success r))
                       js_actions this addresses (Some "wei") tag)
           = RetPromise (Resolved r))
    /\ (r = JArr [] \/ (forall items, r <> JArr items)
        \/ (exists rest, r = JArr (JNull :: rest))
        \/ (exists rest, r = JArr (JUndefined :: rest)) ->
        conversions_of
          (trace (TS.getAccountBalances (with_response E (success r))
                    ts_actions this addresses (Some unit))) = []
        /\ conversions_of
             (trace (JS.getAccountBalances (with_response E (success r))
                       js_actions this addresses (Some unit) tag)) = []).
Proof.
  intros Hne Hin r.
  assert (forall r',
            returned (TS.getAccountBalances (with_response E (success r'))
                        ts_actions this addresses (Some unit))
            = RetPromise (snd (map_balances E unit r'))
            /\ returned (JS.getAccountBalances (with_response E (success r'))
                           js_actions this addresses (Some unit) tag)
               = RetPromise (snd (map_balances E unit r'))
            /\ conversions_of
                 (trace (TS.getAccountBalances (with_response E (success r'))
                           ts_actions this addresses (Some unit)))
               = conversions_of (fst (map_balances E unit r'))
            /\ conversions_of
                 (trace (JS.getAccountBalances (with_response E (success r'))
                           js_actions this addresses (Some unit) tag))
               = conversions_of (fst (map_balances E unit r'))) as Hshape.
  { intros r'.
    unfold TS.getAccountBalances, TS.createRequest_, JS.getAccountBalances,
      JS._createRequest, return_promise.
    cbn [trace returned default from_option id].
    rewrite !conversions_after_success, !and_then_outcome,
      !createRequest_success, !in_units_with_response.
    rewrite (guard_passes E unit Hne Hin), map_balances_with_response.
    repeat split; reflexivity. }
  destruct (Hshape r) as (Hts & Hjs & Hcts & Hcjs).
  rewrite Hts, Hjs, Hcts, Hcjs.
  assert ((forall items, r <> JArr items)
          \/ (exists rest, r = JArr (JNull :: rest))
          \/ (exists rest, r = JArr (JUndefined :: rest)) ->
          map_balances E unit r = ([], Rejected TypeError)) as Hbad.
  { intros [Hna|[[rest ->]|[rest ->]]]; [|reflexivity..].
    destruct r; try reflexivity. destruct (Hna items eq_refl). }
  split; [|split].
  - intros ->. split; reflexivity.
  - intros H. rewrite (Hbad H). repeat split; reflexivity.
  - intros [->|H]; [split; reflexivity|]. rewrite (Hbad H). split; reflexivity.
Qed.

Lemma getAccountBalances_edges_witness :
  returned (JS.getAccountBalances
              (with_response Sample.env
                 (success (JStr "Max rate limit reached")))
              Sample.js_actions Sample.js_client ["0xa"] (Some "ether")
              PUndefined)
  = RetPromise (Rejected TypeError)
  /\ returned (JS.getAccountBalances
                 (with_response Sample.env
                    (success (JStr "Max rate limit reached")))
                 Sample.js_actions Sample.js_client ["0xa"] (Some "wei")
                 PUndefined)
     = RetPromise (Resolved (JStr "Max rate limit reached")).
Proof.
  destruct (getAccountBalances_edges Sample.env Sample.ts_actions
              Sample.js_actions Sample.js_client ["0xa"] PUndefined "ether")
    with (r := JStr "Max rate limit reached") as (_ & Hbad & _).
  - discriminate.
  - exists 18%nat. vm_compute. reflexivity.
  - destruct Hbad as (_ & Hjs & _ & Hwei).
    + left. intros items. discriminate.
    + split; [exact Hjs|exact Hwei].
Defined.

(** ** The constructed client *)

Lemma upper_ascii_idempotent c : upper_ascii (upper_ascii c) = upper_ascii c.
Proof. destruct c as [[] [] [] [] [] [] [] []]; reflexivity. Qed.

Lemma toUpperCase_idempotent s : toUpperCase (toUpperCase s) = toUpperCase s.
Proof.
  induction s as [|c s IH]; [reflexivity|].
  cbn [toUpperCase]. rewrite upper_ascii_idempotent, IH. reflexivity.
Qed.

Lemma construct_invariants E t n :
  host (construct E t n) = NETWORKS E !! network (construct E t n)
  /\ (network (construct E t n) = "MAIN"
      \/ is_Some (NETWORKS E !! network (construct E t n)))
  /\ toUpperCase (network (construct E t n)) = network (construct E t n)
  /\ (is_Some (NETWORKS E !! "MAIN") -> is_Some (host (construct E t n)))
  /\ construct E t (network (construct E t n)) = construct E t n
  /\ token (construct E t n) = t.
Proof.
  destruct (NETWORKS E !! toUpperCase n) as [h|] eqn:Hn.
  - rewrite (construct_host_known E t n h Hn). cbn [host network token].
    rewrite toUpperCase_idempotent.
    repeat split; eauto.
    rewrite (construct_host_known E t (toUpperCase n) h)
      by (rewrite toUpperCase_idempotent; exact Hn).
    rewrite toUpperCase_idempotent. reflexivity.
  - rewrite (construct_host_unknown E t n Hn). cbn [host network token].
    repeat split; auto.
    destruct (NETWORKS E !! "MAIN") as [h|] eqn:Hmain.
    + apply (construct_host_known E t "MAIN" h Hmain).
    + rewrite <- Hmain. apply (construct_host_unknown E t "MAIN" Hmain).
Qed.

(** X7.  What both constructors guarantee of the client they build,
    whatever the network name: the stored network name is upper-case and
    is either a key of the network table or "MAIN"; the host is the
    table's entry for the stored name, hence defined whenever the table
    has an entry for "MAIN"; and building a client again from its own
    network name and token gives the same client. *)
Theorem constructed_client_is_consistent (E : environment)
    (tok net : option string) :
  (host (TS.new E tok net) = NETWORKS E !! network (TS.new E tok net)
   /\ (network (TS.new E tok net) = "MAIN"
       \/ is_Some (NETWORKS E !! network (TS.new E tok net)))
   /\ toUpperCase (network (TS.new E tok net)) = network (TS.new E tok net)
   /\ (is_Some (NETWORKS E !! "MAIN") -> is_Some (host (TS.new E tok net)))
   /\ TS.new E (Some (token (TS.new E tok net)))
        (Some (network (TS.new E tok net)))
      = TS.new E tok net)
  /\ (host (JS.new E tok net) = NETWORKS E !! network (JS.new E tok net)
      /\ (network (JS.new E tok net) = "MAIN"
          \/ is_Some (NETWORKS E !! network (JS.new E tok net)))
      /\ toUpperCase (network (JS.new E tok net)) = network (JS.new E tok net)
      /\ (is_Some (NETWORKS E !! "MAIN") -> is_Some (host (JS.new E tok net)))
      /\ JS.new E (Some (token (JS.new E tok net)))
           (Some (network (JS.new E tok net)))
         = JS.new E tok net).
Proof.
  unfold TS.new, JS.new. cbn [default from_option id].
  split.
  - destruct (construct_invariants E (from_option id "YourApiKeyToken" tok)
                (from_option id "MAIN" net)) as (H1 & H2 & H3 & H4 & H5 & H6).
    rewrite H6. auto.
  - destruct (construct_invariants E (from_option id "" tok)
                (from_option id "MAIN" net)) as (H1 & H2 & H3 & H4 & H5 & H6).
    rewrite H6. auto.
Qed.

Lemma constructed_client_is_consistent_witness :
  is_Some (host (TS.new Sample.env None (Some "no such network")))
  /\ is_Some (host (JS.new Sample.env (Some "KEY") (Some "Kovan"))).
Proof.
  destruct (constructed_client_is_consistent Sample.env None
              (Some "no such network")) as ((_ & _ & _ & Hts & _) & _).
  destruct (constructed_client_is_consistent Sample.env (Some "KEY")
              (Some "Kovan")) as (_ & (_ & _ & _ & Hjs & _)).
  split; [apply Hts|apply Hjs];
    exists "https://api.etherscan.io/api"; vm_compute; reflexivity.
Defined.

(** ** The two clients side by side *)

(** X8.  Where the two clients name the same action, they do the same:
    getAccountBalance (the JavaScript one without a tag),
    getContractAbi, getContractExecutionStatus and getTransactionStatus
    of the TypeScript client cause the same events and return the same
    promise as those of the JavaScript client, for every argument and
    every remote answer. *)
Theorem clients_agree_on_shared_operations (E : environment)
    (ts_actions : TS.actions) (js_actions : JS.actions) (this : client)
    (address txhash : string) (unit : option string) :
  ts_actions.(TS.BALANCE) = js_actions.(JS.GET_BALANCE) ->
  ts_actions.(TS.GET_ABI) = js_actions.(JS.GET_ABI) ->
  ts_actions.(TS.GET_CONTRACT_STATUS) = js_actions.(JS.GET_CONTRACT_STATUS) ->
  ts_actions.(TS.GET_TRANSACTION_STATUS)
  = js_actions.(JS.GET_TRANSACTION_STATUS) ->
  TS.getAccountBalance E ts_actions this address unit
  = JS.getAccountBalance E js_actions this (PStr address) unit PUndefined
  /\ TS.getContractAbi E ts_actions this address
     = JS.getContractAbi E js_actions this (PStr address)
  /\ TS.getContractExecutionStatus E ts_actions this txhash
     = JS.getContractExecutionStatus E js_actions this (PStr txhash)
  /\ TS.getTransactionStatus E ts_actions this txhash
     = JS.getTransactionStatus E js_actions this (PStr txhash).
Proof.
  intros Hbalance Habi Hcontract Htx.
  unfold TS.getAccountBalance, TS.getContractAbi,
    TS.getContractExecutionStatus, TS.getTransactionStatus, TS.createRequest_,
    JS.getAccountBalance, JS.getContractAbi, JS.getContractExecutionStatus,
    JS.getTransactionStatus, JS._createRequest.
  rewrite Hbalance, Habi, Hcontract, Htx, and_then_resolve.
  repeat split; reflexivity.
Qed.

Lemma clients_agree_on_shared_operations_witness :
  TS.getContractAbi Sample.env Sample.ts_actions Sample.ts_client "0xabc"
  = JS.getContractAbi Sample.env Sample.js_actions Sample.ts_client
      (PStr "0xabc")
  /\ TS.getAccountBalance Sample.env Sample.ts_actions Sample.ts_client
       "0xabc" (Some "ether")
     = JS.getAccountBalance Sample.env Sample.js_actions Sample.ts_client
         (PStr "0xabc") (Some "ether") PUndefined.
Proof.
  destruct (clients_agree_on_shared_operations Sample.env Sample.ts_actions
              Sample.js_actions Sample.ts_client "0xabc" "0x1" (Some "ether"))
    as (Hbalance & Habi & _); try reflexivity.
  split; [exact Habi|exact Hbalance].
Defined.

(** X9.  Where the two clients part.  For getTransactions,
    getInternalTransactions and getInternalTransactionsByHash the
    JavaScript client sends the module constant under "module" and the
    action constant under "action", the TypeScript client the other way
    round, and the remaining entries are the same; for
    getAccountBalances the two send the same entries, "tag" and
    "address" in the opposite order. *)
Theorem clients_differ_on_list_operations (E : environment)
    (ts_actions : TS.actions) (js_actions : JS.actions) (this : client)
    (address transactionHash : string) (addresses : list string)
    (startBlock endBlock offset page : option Z)
    (sort : option TS.sort_order) (unit : option string) :
  (exists rest,
     sent_params (TS.getTransactions E ts_actions this address startBlock
                    endBlock offset page sort)
     = Some (("action", PStr (MODULES E).(ACCOUNT))
             :: ("module", PStr ts_actions.(TS.TRANSACTIONS_LIST)) :: rest)
     /\ sent_params (JS.getTransactions E js_actions this (PStr address)
                       (of_number startBlock) (of_number endBlock)
                       (of_number offset) (of_number page) (TS.of_sort sort))
        = Some (("module", PStr (MODULES E).(ACCOUNT))
                :: ("action", PStr js_actions.(JS.GET_TRANSACTIONS_LIST))
                :: rest))
  /\ (exists rest,
        sent_params (TS.getInternalTransactions E ts_actions this address
                       startBlock endBlock offset page sort)
        = Some (("action", PStr (MODULES E).(ACCOUNT))
                :: ("module", PStr ts_actions.(TS.TRANSACTIONS_LIST_INTERNAL))
                :: rest)
        /\ sent_params (JS.getInternalTransactions E js_actions this
                          (PStr address) (of_number startBlock)
                          (of_number endBlock) (of_number offset)
                          (of_number page) (TS.of_sort sort))
           = Some (("module", PStr (MODULES E).(ACCOUNT))
                   :: ("action",
                       PStr js_actions.(JS.GET_TRANSACTIONS_LIST_INTERNAL))
                   :: rest))
  /\ (exists rest,
        sent_params (TS.getInternalTransactionsByHash E ts_actions this
                       transactionHash)
        = Some (("action", PStr (MODULES E).(ACCOUNT))
                :: ("module", PStr ts_actions.(TS.TRANSACTIONS_LIST_INTERNAL))
                :: rest)
        /\ sent_params (JS.getInternalTransactionsByHash E js_actions this
                          (PStr transactionHash))
           = Some (("module", PStr (MODULES E).(ACCOUNT))
                   :: ("action",
                       PStr js_actions.(JS.GET_TRANSACTIONS_LIST_INTERNAL))
                   :: rest))
  /\ sent_params (TS.getAccountBalances E ts_actions this addresses unit)
     = Some [("apikey", PStr (token this));
             ("module", PStr (MODULES E).(ACCOUNT));
             ("action", PStr ts_actions.(TS.BALANCE_MULTI));
             ("tag", PStr "latest");
             ("address", PStr (String.concat "," addresses))]
  /\ sent_params (JS.getAccountBalances E js_actions this addresses unit
                    PUndefined)
     = Some [("apikey", PStr (token this));
             ("module", PStr (MODULES E).(ACCOUNT));
             ("action", PStr js_actions.(JS.GET_BALANCE_MULTI));
             ("address", PStr (String.concat "," addresses));
             ("tag", PStr "latest")].
Proof.
  assert (forall i h p, requests_of (trace i) = [(h, p)] ->
                        sent_params i = Some p) as Hsent.
  { intros i h p H. unfold sent_params. rewrite H. reflexivity. }
  split; [|split; [|split; [|split]]].
  - eexists. split; reflexivity.
  - eexists. split; reflexivity.
  - eexists. split; reflexivity.
  - eapply Hsent. unfold TS.getAccountBalances, TS.createRequest_.
    one_request.
  - eapply Hsent. unfold JS.getAccountBalances, JS._createRequest.
    one_request.
Qed.

(** ** The private request method *)

Lemma obj_set_fresh k v o :
  ~ In k (map fst o) -> obj_set k v o = o ++ [(k, v)].
Proof.
  induction o as [|[k' v'] o IH]; simpl; intros Hk; [reflexivity|].
  destruct (String.eqb_spec k k') as [->|_]; [tauto|].
  rewrite IH by tauto. reflexivity.
Qed.

Lemma fold_obj_set_fresh entries acc :
  List.NoDup (map fst (acc ++ entries)) ->
  fold_left (fun o '(k, v) => obj_set k v o) entries acc = acc ++ entries.
Proof.
  revert acc. induction entries as [|[k v] entries IH]; intros acc Hnd; simpl.
  - rewrite app_nil_r. reflexivity.
  - assert (~ In k (map fst acc)) as Hk.
    { rewrite map_app in Hnd. simpl in Hnd.
      apply NoDup_remove_2 in Hnd. intros Hin. apply Hnd.
      apply in_or_app. left. exact Hin. }
    rewrite (obj_set_fresh k v acc Hk), IH, <- app_assoc; [reflexivity|].
    rewrite <- app_assoc. exact Hnd.
Qed.

(** The literal of a well-formed object is that object. *)
Lemma obj_literal_id p : List.NoDup (map fst p) -> obj_literal p = p.
Proof. intros H. apply (fold_obj_set_fresh p []), H. Qed.

(** X10.  The private request method of both clients forwards a
    well-formed parameter mapping entry by entry: every key other than
    "apikey" keeps its value, "apikey" is the client's token whatever the
    mapping held under that key, a mapping without "apikey" gets it
    appended after its own entries, and the mapping sent is well-formed
    again.  One request goes out, to the client's host. *)
Theorem private_request_forwards_and_sets_apikey (E : environment)
    (this : client) (p : params) :
  List.NoDup (map fst p) ->
  exists sent,
    requests_of (fst (JS._createRequest E this p)) = [(host this, sent)]
    /\ requests_of (fst (TS.createRequest_ E this p)) = [(host this, sent)]
    /\ obj_get "apikey" sent = Some (PStr (token this))
    /\ (forall k, k <> "apikey" -> obj_get k sent = obj_get k p)
    /\ (obj_get "apikey" p = None ->
        sent = p ++ [("apikey", PStr (token this))])
    /\ length p <= length sent <= S (length p)
    /\ List.NoDup (map fst sent).
Proof.
  intros Hnd. exists (obj_set "apikey" (PStr (token this)) p).
  unfold JS._createRequest, TS.createRequest_, obj_spread_with.
  rewrite (obj_literal_id p Hnd), createRequest_requests.
  split; [reflexivity|]. split; [reflexivity|].
  split; [apply obj_get_set_eq|].
  split; [intros k Hk; apply obj_get_set_ne; congruence|].
  split; [|split; [|apply obj_set_NoDup, Hnd]].
  - intros Hnone. apply obj_set_fresh. intros Hin.
    apply in_map_iff in Hin. destruct Hin as ([k v] & Hk & Hin).
    simpl in Hk. subst k. rewrite (In_obj_get _ _ _ Hnd Hin) in Hnone.
    discriminate.
  - clear Hnd. induction p as [|[k v] p IH]; cbn [obj_set length]; [lia|].
    destruct (String.eqb "apikey" k); cbn [length]; lia.
Qed.

Lemma private_request_forwards_and_sets_apikey_witness :
  exists sent,
    requests_of (fst (JS._createRequest Sample.env Sample.js_client
                        [("apikey", PStr "other"); ("module", PStr "stats")]))
    = [(host Sample.js_client, sent)]
    /\ obj_get "apikey" sent = Some (PStr "KEY")
    /\ obj_get "module" sent = Some (PStr "stats").
Proof.
  destruct (private_request_forwards_and_sets_apikey Sample.env
              Sample.js_client
              [("apikey", PStr "other"); ("module", PStr "stats")])
    as (sent & Hjs & _ & Hkey & Hother & _).
  - constructor; [|constructor; [|constructor]]; simpl; intuition discriminate.
  - exists sent. split; [exact Hjs|]. split; [exact Hkey|].
    rewrite Hother by discriminate. reflexivity.
Defined.

(** ** getGasPrice *)

(** X11.  getGasPrice passes the remote result through
    [new BigNumber(result).toFixed()].  When the constructor throws, the
    promise is rejected with that error whatever the unit, and the
    converter is not called.  Otherwise, for "wei" and when the unit is
    left out, the promise resolves with the string toFixed gave, without
    a call to the converter; for another unit of the table, the
    converter is called once, on that string, and the promise resolves
    with that string taken as wei and multiplied by
    10^-exponent[unit]. *)
Theorem getGasPrice_converts_the_fixed_price (E : environment)
    (A : JS.actions) (this : client) (result : jsval) :
  (forall priceFixed,
     BigNumber_toFixed E result = Some priceFixed ->
     returned (JS.getGasPrice (with_response E (success result)) A this
                 (Some "wei"))
     = RetPromise (Resolved (JStr priceFixed))
     /\ returned (JS.getGasPrice (with_response E (success result)) A this
                    None)
        = RetPromise (Resolved (JStr priceFixed))
     /\ conversions_of
          (trace (JS.getGasPrice (with_response E (success result)) A this
                    (Some "wei"))) = []
     /\ conversions_of
          (trace (JS.getGasPrice (with_response E (success result)) A this
                    None)) = [])
  /\ (forall priceFixed unit e d,
        BigNumber_toFixed E result = Some priceFixed ->
        unit <> "wei" -> UNITS E !! "wei" = Some 0%nat ->
        UNITS E !! unit = Some e ->
        Decimal.parse priceFixed = Some d ->
        returned (JS.getGasPrice (with_response E (success result)) A this
                    (Some unit))
        = RetPromise (Resolved (JStr (Decimal.render
                                        (Decimal.scale (- Z.of_nat e) d))))
        /\ conversions_of
             (trace (JS.getGasPrice (with_response E (success result)) A this
                       (Some unit)))
           = [(JStr priceFixed, "wei", unit)])
  /\ (BigNumber_toFixed E result = None ->
      forall unit,
        returned (JS.getGasPrice (with_response E (success result)) A this
                    unit)
        = RetPromise (Rejected BigNumberError)
        /\ conversions_of
             (trace (JS.getGasPrice (with_response E (success result)) A this
                       unit)) = []).
Proof.
  assert (forall unit,
            returned (JS.getGasPrice (with_response E (success result)) A this
                        unit)
            = RetPromise
                (snd (match BigNumber_toFixed E result with
                      | None => reject BigNumberError
                      | Some priceFixed =>
                          if String.eqb (default "wei" unit) "wei"
                          then resolve (JStr priceFixed)
                          else call_etherConvert E (JStr priceFixed) "wei"
                                 (default "wei" unit)
                      end))
            /\ conversions_of
                 (trace (JS.getGasPrice (with_response E (success result)) A
                           this unit))
               = conversions_of
                   (fst (match BigNumber_toFixed E result with
                         | None => reject BigNumberError
                         | Some priceFixed =>
                             if String.eqb (default "wei" unit) "wei"
                             then resolve (JStr priceFixed)
                             else call_etherConvert E (JStr priceFixed) "wei"
                                    (default "wei" unit)
                         end))) as Hshape.
  { intros unit.
    unfold JS.getGasPrice, JS._createRequest, return_promise.
    cbn [trace returned].
    rewrite conversions_after_success, and_then_outcome,
      createRequest_success.
    split; reflexivity. }
  split; [|split].
  - intros priceFixed Hfixed.
    destruct (Hshape (Some "wei")) as [Hr Hc], (Hshape None) as [Hr' Hc'].
    rewrite Hr, Hr', Hc, Hc', Hfixed. repeat split; reflexivity.
  - intros priceFixed unit e d Hfixed Hne Hwei Hunit Hd.
    destruct (Hshape (Some unit)) as [Hr Hc]. rewrite Hr, Hc, Hfixed.
    cbn [default from_option id].
    destruct (String.eqb_spec unit "wei") as [|_]; [contradiction|].
    rewrite call_etherConvert_trace.
    rewrite <- (call_etherConvert_with_response E (success result)).
    rewrite (convert_from_wei E _ unit e _ d Hne Hwei Hunit Hd).
    split; reflexivity.
  - intros Hnone unit. destruct (Hshape unit) as [Hr Hc].
    rewrite Hr, Hc, Hnone. split; reflexivity.
Qed.

Lemma getGasPrice_converts_the_fixed_price_witness :
  returned (JS.getGasPrice
              (with_response Sample.env (success (JStr "0x3b9aca00")))
              Sample.js_actions Sample.js_client (Some "gwei"))
  = RetPromise (Resolved (JStr "1"))
  /\ returned (JS.getGasPrice
                 (with_response Sample.env (success (JStr "abc")))
                 Sample.js_actions Sample.js_client (Some "gwei"))
     = RetPromise (Rejected BigNumberError).
Proof.
  split.
  - destruct (getGasPrice_converts_the_fixed_price Sample.env
                Sample.js_actions Sample.js_client (JStr "0x3b9aca00"))
      as (_ & Hunit & _).
    destruct (Hunit "1000000000" "gwei" 9%nat (Decimal.Dec 1000000000 0))
      as [Hret _]; [vm_compute; reflexivity|discriminate
                   |vm_compute; reflexivity..|].
    exact Hret.
  - destruct (getGasPrice_converts_the_fixed_price Sample.env
                Sample.js_actions Sample.js_client (JStr "abc"))
      as (_ & _ & Hthrow).
    destruct (Hthrow ltac:(vm_compute; reflexivity) (Some "gwei"))
      as [Hret _].
    exact Hret.
Defined.

(** ** Default tags *)

Lemma sent_param_of_requests i h p k :
  requests_of (trace i) = [(h, p)] -> sent_param i k = obj_get k p.
Proof.
  intros H. unfold sent_param, sent_params. rewrite H. reflexivity.
Qed.

(** X12.  The seven methods of the JavaScript client that take a tag
    (getAccountBalance, getAccountBalances, getTransactionCount, call,
    getCode, getStorageAt, getTokenBalanceByContractAddress) always send
    a "tag" entry: "latest" when the caller leaves the tag out, the
    caller's tag otherwise.  The two balance methods of the TypeScript
    client, which take none, always send "latest". *)
Theorem tag_defaults_to_latest (E : environment)
    (ts_actions : TS.actions) (js_actions : JS.actions) (this : client)
    (tag address to data contractAddress : pval) (position : Z)
    (ts_address : string) (addresses : list string) (unit : option string) :
  sends_tag tag (JS.getAccountBalance E js_actions this address unit tag)
  /\ sends_tag tag (JS.getAccountBalances E js_actions this addresses unit tag)
  /\ sends_tag tag (JS.getTransactionCount E js_actions this address tag)
  /\ sends_tag tag (JS.call E js_actions this to data tag)
  /\ sends_tag tag (JS.getCode E js_actions this address tag)
  /\ sends_tag tag (JS.getStorageAt E js_actions this address position tag)
  /\ sends_tag tag (JS.getTokenBalanceByContractAddress E js_actions this
                      contractAddress address tag)
  /\ sent_param (TS.getAccountBalance E ts_actions this ts_address unit) "tag"
     = Some (PStr "latest")
  /\ sent_param (TS.getAccountBalances E ts_actions this addresses unit) "tag"
     = Some (PStr "latest").
Proof.
  unfold JS.getAccountBalance, JS.getAccountBalances, JS.getTransactionCount,
    JS.call, JS.getCode, JS.getStorageAt, JS.getTokenBalanceByContractAddress,
    JS._createRequest, TS.getAccountBalance, TS.getAccountBalances,
    TS.createRequest_.
  unfold sends_tag.
  repeat apply conj; intros;
    (erewrite sent_param_of_requests by one_request);
    destruct tag; try reflexivity; congruence.
Qed.
